(** * weather-forecast-app: a shallow embedding of [app.py]

    The Flask application of [src/app.py] is embedded as pure functions in a
    small reader/state/exception monad.  The read-only part is the process
    environment, the upstream HTTP service as it answers during one request
    and the clock; the mutable part is the [weather_queries] table, the list
    of outbound requests issued so far and the flashed messages. *)

From Stdlib Require Import ZArith String Ascii List Lia.
From Stdlib Require Import Floats.PrimFloat.
From stdpp Require Import gmap strings list fin_maps sorting.

#[local] Set Warnings "-register-all".
#[local] Open Scope string_scope.
#[local] Open Scope list_scope.
#[local] Open Scope Z_scope.

(** ** Python values *)

(** A decoded JSON document, as [r.json()] and [request.get_json()] return
    it: [None], [bool], [int], [float], [str], [list] and [dict].  A [dict]
    is an association list read with first-match lookup. *)
Inductive json : Type :=
| JNull
| JBool (b : bool)
| JInt (n : Z)
| JFloat (f : float)
| JStr (s : string)
| JArr (items : list json)
| JObj (fields : list (string * json)).

(** Python truth value testing ([if not data]). *)
Definition truthy (j : json) : bool :=
  match j with
  | JNull => false
  | JBool b => b
  | JInt n => negb (n =? 0)
  | JFloat f => negb (PrimFloat.eqb f 0%float)
  | JStr s => negb (String.eqb s "")
  | JArr items => match items with [] => false | _ => true end
  | JObj fields => match fields with [] => false | _ => true end
  end.

(** [d.get(k)] on the association list behind a [dict]. *)
Fixpoint assoc {A : Type} (k : string) (l : list (string * A)) : option A :=
  match l with
  | [] => None
  | (k', v) :: rest => if String.eqb k k' then Some v else assoc k rest
  end.

(** The exceptions the program can meet.  [NotFound404] is the
    [werkzeug.exceptions.NotFound] that [get_or_404] aborts with. *)
Inductive transport_failure := Timeout | ConnectionError.

Inductive exn : Type :=
| RuntimeError (msg : string)
| RequestException (why : transport_failure)
| HTTPError (status : Z)
| JSONDecodeError
| ValueError
| KeyError (key : json)
| TypeError
| AttributeError
| IndexError
| NotFound404.

(** [except ValueError]: [json.JSONDecodeError] is a subclass of it. *)
Definition is_ValueError (e : exn) : bool :=
  match e with
  | ValueError | JSONDecodeError => true
  | _ => false
  end.

(** [except Exception] catches every exception of the model. *)
Definition is_Exception (e : exn) : bool := true.

(** ** Strings

    A character of the model is a Unicode code point below 256; a text with
    a character beyond that range is outside the model. *)

(** [str.isspace] on that range: TAB..CR, FS..US, the blank, NEL (U+0085)
    and the no-break space (U+00A0). *)
Definition isspace (c : ascii) : bool :=
  let n := Z.of_nat (nat_of_ascii c) in
  ((9 <=? n) && (n <=? 13)) || ((28 <=? n) && (n <=? 32)) ||
  (n =? 133) || (n =? 160).

Fixpoint lstrip (s : string) : string :=
  match s with
  | String c rest => if isspace c then lstrip rest else s
  | EmptyString => EmptyString
  end.

(** Drops the trailing blanks: a character is kept when it is not a blank
    or when something is kept after it. *)
Fixpoint rstrip (s : string) : string :=
  match s with
  | EmptyString => EmptyString
  | String c rest =>
      match rstrip rest with
      | EmptyString => if isspace c then EmptyString else String c EmptyString
      | kept => String c kept
      end
  end.

(** [s.strip()] *)
Definition strip (s : string) : string := rstrip (lstrip s).

(** ** Calendar dates *)

(** [datetime.date]: year, month, day. *)
Record date : Type := mkdate { year : Z; month : Z; day : Z }.

Definition is_leap (y : Z) : bool :=
  ((y mod 4 =? 0) && negb (y mod 100 =? 0)) || (y mod 400 =? 0).

Definition days_in_month (y m : Z) : Z :=
  if m =? 2 then (if is_leap y then 29 else 28)
  else if (m =? 4) || (m =? 6) || (m =? 9) || (m =? 11) then 30
  else 31.

(** The values the [date] constructor accepts ([MINYEAR = 1],
    [MAXYEAR = 9999]); anything else is a [ValueError]. *)
Definition valid_date (d : date) : bool :=
  (1 <=? year d) && (year d <=? 9999) &&
  (1 <=? month d) && (month d <=? 12) &&
  (1 <=? day d) && (day d <=? days_in_month (year d) (month d)).

(** Lexicographic order on the components, the order of Python's [date]
    and [datetime] comparisons. *)
Fixpoint lex_ltb (a b : list Z) : bool :=
  match a, b with
  | x :: a', y :: b' => (x <? y) || ((x =? y) && lex_ltb a' b')
  | [], _ :: _ => true
  | _, [] => false
  end.

Definition date_key (d : date) : list Z := [year d; month d; day d].

(** [a > b] on dates. *)
Definition date_gtb (a b : date) : bool := lex_ltb (date_key b) (date_key a).

(** [start_date <= end_date], written out on the components. *)
Definition date_le (a b : date) : Prop :=
  year a < year b \/
  (year a = year b /\
   (month a < month b \/ (month a = month b /\ day a <= day b))).

(** *** Decimal digits *)

Definition digit_of_char (c : ascii) : option Z :=
  let n := Z.of_nat (nat_of_ascii c) in
  if (48 <=? n) && (n <=? 57) then Some (n - 48) else None.

Definition char_of_digit (k : Z) : ascii :=
  ascii_of_nat (Z.to_nat (48 + k mod 10)).

(** [%02d] and [%04d] for the non-negative values of a valid date. *)
Definition fmt2 (n : Z) (tail : string) : string :=
  String (char_of_digit (n / 10)) (String (char_of_digit n) tail).

Definition fmt4 (n : Z) (tail : string) : string :=
  String (char_of_digit (n / 1000)) (String (char_of_digit (n / 100))
    (fmt2 n tail)).

Definition fmt_date (d : date) (tail : string) : string :=
  fmt4 (year d) (String "-" (fmt2 (month d) (String "-" (fmt2 (day d) tail)))).

(** [str(d)], that is [d.isoformat()]: [YYYY-MM-DD]. *)
Definition date_isoformat (d : date) : string := fmt_date d "".

(** *** [datetime.strptime(d, "%Y-%m-%d")]

    The format compiles to the regular expression
    [(\d\d\d\d)-(1[0-2]|0[1-9]|[1-9])-(3[01]|[12]\d|0[1-9]|[1-9]| [1-9])]
    matched at the start of the input; text left over after the match, and
    a year, month or day that is not a calendar date, are a [ValueError].
    Among the code points below 256 the decimal digits [\d] matches are
    the ASCII digits.
    Each scanner returns the number read and the rest of the input. *)
Definition scan_year (s : string) : option (Z * string) :=
  match s with
  | String a (String b (String c (String d rest))) =>
      match digit_of_char a, digit_of_char b, digit_of_char c, digit_of_char d with
      | Some x3, Some x2, Some x1, Some x0 =>
          Some (1000 * x3 + 100 * x2 + 10 * x1 + x0, rest)
      | _, _, _, _ => None
      end
  | _ => None
  end.

Definition scan_dash (s : string) : option string :=
  match s with
  | String "-" rest => Some rest
  | _ => None
  end.

Definition in_range (lo hi : Z) (o : option Z) : bool :=
  match o with
  | Some k => (lo <=? k) && (k <=? hi)
  | None => false
  end.

Definition digit_val (c : ascii) : Z := default 0 (digit_of_char c).

(** One alternative of two characters, [a] with value [ka] then a digit in
    [lo..hi]. *)
Definition two_chars (a : ascii) (ka lo hi : Z) (s : string) : option (Z * string) :=
  match s with
  | String c (String d rest) =>
      if Ascii.eqb c a && in_range lo hi (digit_of_char d)
      then Some (10 * ka + digit_val d, rest) else None
  | _ => None
  end.

(** The last alternative, [[1-9]]. *)
Definition one_char (s : string) : option (Z * string) :=
  match s with
  | String c rest =>
      if in_range 1 9 (digit_of_char c) then Some (digit_val c, rest) else None
  | _ => None
  end.

(** Ordered choice, as the regular expression engine tries alternatives. *)
Definition orelse {A : Type} (x y : option A) : option A :=
  match x with Some _ => x | None => y end.

Definition scan_month (s : string) : option (Z * string) :=
  orelse (two_chars "1" 1 0 2 s) (orelse (two_chars "0" 0 1 9 s) (one_char s)).

Definition scan_day (s : string) : option (Z * string) :=
  orelse (two_chars "3" 3 0 1 s)
    (orelse (two_chars "1" 1 0 9 s)
      (orelse (two_chars "2" 2 0 9 s)
        (orelse (two_chars "0" 0 1 9 s)
          (orelse (one_char s) (two_chars " " 0 1 9 s))))).

(** [None] stands for the [ValueError]. *)
Definition strptime_ymd (s : string) : option date :=
  match scan_year s with
  | Some (y, s1) =>
      match scan_dash s1 with
      | Some s2 =>
          match scan_month s2 with
          | Some (m, s3) =>
              match scan_dash s3 with
              | Some s4 =>
                  match scan_day s4 with
                  | Some (d, EmptyString) =>
                      let r := mkdate y m d in
                      if valid_date r then Some r else None
                  | _ => None
                  end
              | None => None
              end
          | None => None
          end
      | None => None
      end
  | None => None
  end.

(** ** Timestamps *)

(** A naive [datetime.datetime], as [datetime.utcnow] returns it. *)
Record datetime : Type := mkdatetime {
  dt_date : date;
  hour : Z;
  minute : Z;
  second : Z;
  microsecond : Z
}.

Definition datetime_key (t : datetime) : list Z :=
  date_key (dt_date t) ++ [hour t; minute t; second t; microsecond t].

(** [t.isoformat()]: [YYYY-MM-DDTHH:MM:SS], followed by [.ffffff] when the
    microseconds are not zero. *)
Definition datetime_isoformat (t : datetime) : string :=
  fmt_date (dt_date t)
    (String "T" (fmt2 (hour t) (String ":" (fmt2 (minute t) (String ":"
      (fmt2 (second t)
        (if microsecond t =? 0 then ""
         else String "." (fmt2 (microsecond t / 10000)
                (fmt2 (microsecond t / 100) (fmt2 (microsecond t) "")))))))))).

(** ** The model class *)

(** A row of [weather_queries].  The coordinate columns hold the value the
    handler assigned ([loc["lat"]], a decoded JSON value; [JNull] is SQL
    [NULL]); the column's conversion to a float is not modelled.  Nullable
    text and date columns are options. *)
Module WeatherQuery.
Record t : Type := mk {
  id : Z;
  user_input : string;
  normalized_name : option string;
  lat : json;
  lon : json;
  start_date : option date;
  end_date : option date;
  created_at : datetime;
  current_weather_json : option string;
  forecast_json : option string
}.
End WeatherQuery.

(** ** The world around one request *)

(** [requests.get(url, params=params, timeout=timeout)] *)
Record http_request : Type := mkreq {
  url : string;
  params : list (string * json);
  timeout : Z
}.

(** What comes back: no response at all (the call raises), or a response
    with its status code and its body, [None] when the body is not JSON. *)
Inductive http_result : Type :=
| NoResponse (why : transport_failure)
| Response (status_code : Z) (body : option json).

(** Read during a request and never written: [os.environ], the upstream
    service and the clock. *)
Record environment : Type := mkenv {
  environ : gmap string string;
  upstream : http_request -> http_result;
  utcnow : datetime
}.

(** Written during a request: the table (rows by primary key), the outbound
    requests issued so far, oldest first, and the flashed messages. *)
Record state : Type := mkstate {
  table : gmap Z WeatherQuery.t;
  sent : list http_request;
  flashed : list (string * string)
}.

Definition with_table (f : gmap Z WeatherQuery.t -> gmap Z WeatherQuery.t)
    (st : state) : state :=
  mkstate (f (table st)) (sent st) (flashed st).

(** ** Computations that read the environment, change the state and raise *)

Inductive outcome (A : Type) : Type :=
| Returned (a : A)
| Raised (e : exn).
Arguments Returned {A} a.
Arguments Raised {A} e.

Definition M (A : Type) : Type := environment -> state -> outcome A * state.

#[global] Instance M_ret : MRet M := fun A a _ st => (Returned a, st).

#[global] Instance M_bind : MBind M := fun A B f c env st =>
  match c env st with
  | (Returned a, st') => f a env st'
  | (Raised e, st') => (Raised e, st')
  end.

Definition raise {A : Type} (e : exn) : M A := fun _ st => (Raised e, st).

(** [try: c  except <catches>:], returning what happened: the handlers
    below leave the function from their [except] blocks. *)
Definition attempt {A : Type} (catches : exn -> bool) (c : M A) : M (A + exn) :=
  fun env st =>
    match c env st with
    | (Returned a, st') => (Returned (inl a), st')
    | (Raised e, st') =>
        if catches e then (Returned (inr e), st') else (Raised e, st')
    end.

(** A call of a function that only computes. *)
Definition call {A : Type} (o : outcome A) : M A := fun _ st => (o, st).

Definition ask : M environment := fun env st => (Returned env, st).
Definition get_table : M (gmap Z WeatherQuery.t) :=
  fun _ st => (Returned (table st), st).
Definition modify_table (f : gmap Z WeatherQuery.t -> gmap Z WeatherQuery.t) : M unit :=
  fun _ st => (Returned tt, with_table f st).

(** [flash(message, category)] *)
Definition flash (message category : string) : M unit :=
  fun _ st =>
    (Returned tt, mkstate (table st) (sent st) (flashed st ++ [(message, category)])).

(** [requests.get]: the request goes out, then either a response comes
    back or the call raises. *)
Definition requests_get (rq : http_request) : M (Z * option json) :=
  fun env st =>
    let st' := mkstate (table st) (sent st ++ [rq]) (flashed st) in
    match upstream env rq with
    | NoResponse why => (Raised (RequestException why), st')
    | Response code body => (Returned (code, body), st')
    end.

(** [r.raise_for_status()]: an [HTTPError] for the 4xx and 5xx codes. *)
Definition is_error_status (code : Z) : bool := (400 <=? code) && (code <? 600).

Definition raise_for_status (r : Z * option json) : M unit :=
  if is_error_status (fst r) then raise (HTTPError (fst r)) else mret tt.

(** [r.json()] *)
Definition response_json (r : Z * option json) : M json :=
  match snd r with
  | Some j => mret j
  | None => raise JSONDecodeError
  end.

(** ** Requests and responses *)

(** The part of Flask's [request] the handlers read: the method, the form
    fields and the decoded JSON body ([request.get_json()]). *)
Record request : Type := mkrequest {
  method : string;
  form : list (string * string);
  get_json : json
}.

(** What a handler returns.  [Redirect e a] is [redirect(url_for(e))], with
    [query_id=a] when there is one; the [Render*] constructors are the four
    templates with their context; [Jsonify c j] is [jsonify(j), c];
    [CsvAttachment] carries the header and the rows handed to [csv.writer],
    a date cell held as the text [csv.writer] writes for it. *)
Inductive response : Type :=
| Redirect (endpoint : string) (query_id : option Z)
| RenderIndex (weather forecast : option json) (query : option WeatherQuery.t)
| RenderHistory (queries : list WeatherQuery.t)
| RenderDetail (query : WeatherQuery.t) (weather forecast : option json)
| RenderEdit (query : WeatherQuery.t)
| Jsonify (status : Z) (payload : json)
| CsvAttachment (header : list string) (rows : list (list json)).

(** ** Config *)

(** [os.environ.get("OPENWEATHER_API_KEY", "54c3...")] *)
Definition WEATHER_API_KEY (env : environment) : string :=
  default "54c3e5436355a0e40913a9976b9e75ef" (environ env !! "OPENWEATHER_API_KEY").

(** ** The table *)

Definition all_rows (rows : gmap Z WeatherQuery.t) : list WeatherQuery.t :=
  (map_to_list rows).*2.

(** The key SQLite gives a new row of an [INTEGER PRIMARY KEY] table: one
    more than the largest key in use. *)
Definition fresh_id (rows : gmap Z WeatherQuery.t) : Z :=
  1 + foldr Z.max 0 (map_to_list rows).*1.

(** [a.created_at <= b.created_at] *)
Definition created_le (a b : WeatherQuery.t) : Prop :=
  Is_true (negb (lex_ltb (datetime_key (WeatherQuery.created_at b))
                         (datetime_key (WeatherQuery.created_at a)))).

#[global] Instance created_le_dec : RelDecision created_le :=
  fun a b => Is_true_dec _.

(** [WeatherQuery.query.order_by(WeatherQuery.created_at).all()].  SQL
    leaves the order of rows with equal keys open; the model sorts the rows
    with a merge sort. *)
Definition order_by_created_at (rows : gmap Z WeatherQuery.t) : list WeatherQuery.t :=
  merge_sort created_le (all_rows rows).

(** [WeatherQuery.query.order_by(WeatherQuery.created_at.desc()).all()] *)
Definition order_by_created_at_desc (rows : gmap Z WeatherQuery.t) : list WeatherQuery.t :=
  merge_sort (flip created_le) (all_rows rows).

(** [WeatherQuery.query.get_or_404(query_id)] *)
Definition get_or_404 (query_id : Z) : M WeatherQuery.t :=
  rows ← get_table;
  match rows !! query_id with
  | Some q => mret q
  | None => raise NotFound404
  end.

(** [db.session.add(query_obj); db.session.commit()]: the store assigns the
    key and the [created_at] default.  The commit is taken to succeed: a
    commit the database refuses (a coordinate that is a list or an object
    cannot be bound to its column, a locked or full database) raises in the
    program, outside every [try], and is not part of the model; the same
    holds of the commit of the edit and of the delete handler. *)
Definition add_and_commit (new : Z -> datetime -> WeatherQuery.t) : M WeatherQuery.t :=
  env ← ask;
  rows ← get_table;
  let row := new (fresh_id rows) (utcnow env) in
  modify_table (insert (WeatherQuery.id row) row);;
  mret row.

(** ** Helpers *)

(** [parse_date]: [None] for a missing or empty field.  The function
    touches nothing outside its argument, so it is a plain function. *)
Definition parse_date (d : option string) : outcome (option date) :=
  match d with
  | None => Returned None
  | Some s =>
      if String.eqb s "" then Returned None
      else match strptime_ymd s with
           | Some r => Returned (Some r)
           | None => Raised ValueError
           end
  end.

(** [data[0]] *)
Definition getitem_0 (data : json) : M json :=
  match data with
  | JArr (x :: _) => mret x
  | JArr [] => raise IndexError
  | JStr (String c _) => mret (JStr (String c ""))
  | JStr EmptyString => raise IndexError
  | JObj _ => raise (KeyError (JInt 0))
  | _ => raise TypeError
  end.

(** [loc.get(k)] *)
Definition dict_get (loc : json) (k : string) : M json :=
  match loc with
  | JObj fields => mret (default JNull (assoc k fields))
  | _ => raise AttributeError
  end.

(** [loc[k]] with a string key *)
Definition getitem (loc : json) (k : string) : M json :=
  match loc with
  | JObj fields =>
      match assoc k fields with
      | Some v => mret v
      | None => raise (KeyError (JStr k))
      end
  | _ => raise TypeError
  end.

(** The dict [geocode_location] returns. *)
Record location : Type := mklocation {
  loc_name : string;
  loc_lat : json;
  loc_lon : json
}.

Section App.

(** Python's own [json.dumps], [json.loads] ([None] when the text does not
    decode) and [repr] are not part of the repository; the program is
    embedded over them. *)
Variable json_dumps : json -> string.
Variable json_loads : string -> option json.
Variable py_repr : json -> string.

(** How an f-string prints a value: [str(v)]. *)
Definition py_str (v : json) : string :=
  match v with
  | JStr s => s
  | JNull => "None"
  | JBool true => "True"
  | JBool false => "False"
  | _ => py_repr v
  end.

Definition geocode_location (query : string) : M (option location) :=
  env ← ask;
  if String.eqb (WEATHER_API_KEY env) "" then
    raise (RuntimeError "OPENWEATHER_API_KEY is not set")
  else
    r ← requests_get
          (mkreq "http://api.openweathermap.org/geo/1.0/direct"
             [("q", JStr query); ("limit", JInt 1);
              ("appid", JStr (WEATHER_API_KEY env))] 5);
    raise_for_status r;;
    data ← response_json r;
    if negb (truthy data) then mret None
    else
      loc ← getitem_0 data;
      name ← dict_get loc "name";
      country ← dict_get loc "country";
      lat ← getitem loc "lat";
      lon ← getitem loc "lon";
      mret (Some (mklocation (py_str name +:+ ", " +:+ py_str country) lat lon)).

Definition get_weather_and_forecast (lat lon : json) : M (json * json) :=
  env ← ask;
  if String.eqb (WEATHER_API_KEY env) "" then
    raise (RuntimeError "OPENWEATHER_API_KEY is not set")
  else
    let params := [("lat", lat); ("lon", lon);
                   ("appid", JStr (WEATHER_API_KEY env));
                   ("units", JStr "metric")] in
    current_resp ← requests_get
      (mkreq "https://api.openweathermap.org/data/2.5/weather" params 5);
    raise_for_status current_resp;;
    forecast_resp ← requests_get
      (mkreq "https://api.openweathermap.org/data/2.5/forecast" params 5);
    raise_for_status forecast_resp;;
    current ← response_json current_resp;
    forecast ← response_json forecast_resp;
    mret (current, forecast).

(** ** Routes *)

(** [start_date and end_date and start_date > end_date]; a [date] is
    always true. *)
Definition starts_after_end (start_date end_date : option date) : bool :=
  match start_date, end_date with
  | Some a, Some b => date_gtb a b
  | _, _ => false
  end.

(** The two [parse_date] calls of one [try] block. *)
Definition parse_dates (start_date_raw end_date_raw : option string)
    : M (option date * option date) :=
  start_date ← call (parse_date start_date_raw);
  end_date ← call (parse_date end_date_raw);
  mret (start_date, end_date).

(** [@app.route("/", methods=["GET", "POST"])].  The [print] calls of the
    [except] blocks write to the console only and are left out. *)
Definition index (rq : request) : M response :=
  if String.eqb (method rq) "POST" then
    let location := strip (default "" (assoc "location" (form rq))) in
    let start_date_raw := assoc "start_date" (form rq) in
    let end_date_raw := assoc "end_date" (form rq) in
    if String.eqb location "" then
      flash "Please enter a location." "error";;
      mret (Redirect "index" None)
    else
      dates ← attempt is_ValueError (parse_dates start_date_raw end_date_raw);
      match dates with
      | inr _ =>
          flash "Invalid date format. Use YYYY-MM-DD." "error";;
          mret (Redirect "index" None)
      | inl (start_date, end_date) =>
          if starts_after_end start_date end_date then
            flash "Start date must be before end date." "error";;
            mret (Redirect "index" None)
          else
            found ← attempt is_Exception (geocode_location location);
            match found with
            | inr _ =>
                flash "Error contacting geocoding service." "error";;
                mret (Redirect "index" None)
            | inl None =>
                flash "Could not find that location. Try a more specific name." "error";;
                mret (Redirect "index" None)
            | inl (Some loc) =>
                fetched ← attempt is_Exception
                  (get_weather_and_forecast (loc_lat loc) (loc_lon loc));
                match fetched with
                | inr _ =>
                    flash "Error retrieving weather data." "error";;
                    mret (Redirect "index" None)
                | inl (current, forecast) =>
                    query_obj ← add_and_commit (fun new_id now =>
                      WeatherQuery.mk new_id location (Some (loc_name loc))
                        (loc_lat loc) (loc_lon loc) start_date end_date now
                        (Some (json_dumps current)) (Some (json_dumps forecast)));
                    mret (RenderIndex (Some current) (Some forecast) (Some query_obj))
                end
            end
      end
  else mret (RenderIndex None None None).

(** [@app.route("/history")] *)
Definition history : M response :=
  rows ← get_table;
  mret (RenderHistory (order_by_created_at_desc rows)).

(** [json.loads(blob) if blob else None] *)
Definition loads_if_present (blob : option string) : M (option json) :=
  match blob with
  | None => mret None
  | Some text =>
      if String.eqb text "" then mret None
      else match json_loads text with
           | Some j => mret (Some j)
           | None => raise JSONDecodeError
           end
  end.

(** [@app.route("/history/<int:query_id>")] *)
Definition detail (query_id : Z) : M response :=
  q ← get_or_404 query_id;
  weather ← loads_if_present (WeatherQuery.current_weather_json q);
  forecast ← loads_if_present (WeatherQuery.forecast_json q);
  mret (RenderDetail q weather forecast).

(** [@app.route("/history/<int:query_id>/edit", methods=["GET", "POST"])] *)
Definition edit (query_id : Z) (rq : request) : M response :=
  q ← get_or_404 query_id;
  if String.eqb (method rq) "POST" then
    let location := strip (default "" (assoc "location" (form rq))) in
    let start_date_raw := assoc "start_date" (form rq) in
    let end_date_raw := assoc "end_date" (form rq) in
    if String.eqb location "" then
      flash "Location cannot be empty." "error";;
      mret (Redirect "edit" (Some (WeatherQuery.id q)))
    else
      dates ← attempt is_ValueError (parse_dates start_date_raw end_date_raw);
      match dates with
      | inr _ =>
          flash "Invalid date format." "error";;
          mret (Redirect "edit" (Some (WeatherQuery.id q)))
      | inl (start_date, end_date) =>
          if starts_after_end start_date end_date then
            flash "Start date must be before end date." "error";;
            mret (Redirect "edit" (Some (WeatherQuery.id q)))
          else
            found ← geocode_location location;
            match found with
            | None =>
                flash "Could not find that location." "error";;
                mret (Redirect "edit" (Some (WeatherQuery.id q)))
            | Some loc =>
                '(current, forecast) ←
                  get_weather_and_forecast (loc_lat loc) (loc_lon loc);
                modify_table (insert (WeatherQuery.id q)
                  (WeatherQuery.mk (WeatherQuery.id q) location
                     (Some (loc_name loc)) (loc_lat loc) (loc_lon loc)
                     start_date end_date (WeatherQuery.created_at q)
                     (Some (json_dumps current)) (Some (json_dumps forecast))));;
                flash "Record updated." "success";;
                mret (Redirect "detail" (Some (WeatherQuery.id q)))
            end
      end
  else mret (RenderEdit q).

(** [@app.route("/history/<int:query_id>/delete", methods=["POST"])] *)
Definition delete (query_id : Z) : M response :=
  q ← get_or_404 query_id;
  modify_table (base.delete (WeatherQuery.id q));;
  flash "Record deleted." "success";;
  mret (Redirect "history" None).

(** [lat is None or lon is None] after [data.get("lat")], [data.get("lon")] *)
Definition is_None (v : json) : bool :=
  match v with JNull => true | _ => false end.

(** [@app.route("/by-coords", methods=["POST"])] *)
Definition by_coords (rq : request) : M response :=
  let data := get_json rq in
  lat ← dict_get data "lat";
  lon ← dict_get data "lon";
  if is_None lat || is_None lon then
    mret (Jsonify 400 (JObj [("error", JStr "Missing coordinates")]))
  else
    fetched ← attempt is_Exception (get_weather_and_forecast lat lon);
    match fetched with
    | inr _ => mret (Jsonify 500 (JObj [("error", JStr "Weather API error")]))
    | inl (current, forecast) =>
        mret (Jsonify 200 (JObj [("current", current); ("forecast", forecast)]))
    end.

(** [str(d) if d else None] *)
Definition date_or_null (d : option date) : json :=
  match d with
  | Some x => JStr (date_isoformat x)
  | None => JNull
  end.

Definition str_or_null (s : option string) : json :=
  match s with
  | Some x => JStr x
  | None => JNull
  end.

(** One item of the structured export. *)
Definition export_item (q : WeatherQuery.t) : json :=
  JObj [("id", JInt (WeatherQuery.id q));
        ("user_input", JStr (WeatherQuery.user_input q));
        ("normalized_name", str_or_null (WeatherQuery.normalized_name q));
        ("lat", WeatherQuery.lat q);
        ("lon", WeatherQuery.lon q);
        ("start_date", date_or_null (WeatherQuery.start_date q));
        ("end_date", date_or_null (WeatherQuery.end_date q));
        ("created_at", JStr (datetime_isoformat (WeatherQuery.created_at q)))].

(** One row handed to [writer.writerow]. *)
Definition export_row (q : WeatherQuery.t) : list json :=
  [JInt (WeatherQuery.id q);
   JStr (WeatherQuery.user_input q);
   str_or_null (WeatherQuery.normalized_name q);
   WeatherQuery.lat q;
   WeatherQuery.lon q;
   date_or_null (WeatherQuery.start_date q);
   date_or_null (WeatherQuery.end_date q);
   JStr (datetime_isoformat (WeatherQuery.created_at q))].

(** [@app.route("/export/<fmt>")] *)
Definition export (fmt : string) : M response :=
  rows ← get_table;
  let queries := order_by_created_at rows in
  if String.eqb fmt "json" then
    mret (Jsonify 200 (JArr (export_item <$> queries)))
  else if String.eqb fmt "csv" then
    mret (CsvAttachment
            ["id"; "user_input"; "normalized_name"; "lat"; "lon";
             "start_date"; "end_date"; "created_at"]
            (export_row <$> queries))
  else mret (Jsonify 400 (JObj [("error", JStr "Unsupported format")])).

(** ** The outbound requests, by name *)

Definition geocode_request (env : environment) (query : string) : http_request :=
  mkreq "http://api.openweathermap.org/geo/1.0/direct"
    [("q", JStr query); ("limit", JInt 1); ("appid", JStr (WEATHER_API_KEY env))] 5.

Definition weather_params (env : environment) (lat lon : json) : list (string * json) :=
  [("lat", lat); ("lon", lon); ("appid", JStr (WEATHER_API_KEY env));
   ("units", JStr "metric")].

Definition current_request (env : environment) (lat lon : json) : http_request :=
  mkreq "https://api.openweathermap.org/data/2.5/weather" (weather_params env lat lon) 5.

Definition forecast_request (env : environment) (lat lon : json) : http_request :=
  mkreq "https://api.openweathermap.org/data/2.5/forecast" (weather_params env lat lon) 5.

(** A call that does not return success: no response within the timeout
    or no connection, or a status [raise_for_status] rejects. *)
Definition call_failed (r : http_result) : Prop :=
  match r with
  | NoResponse _ => True
  | Response code _ => is_error_status code = true
  end.

(** The state after [reqs] more requests have gone out. *)
Definition after_sending (reqs : list http_request) (st : state) : state :=
  mkstate (table st) (sent st ++ reqs) (flashed st).

(** The state after one more flashed message. *)
Definition after_flash (message category : string) (st : state) : state :=
  mkstate (table st) (sent st) (flashed st ++ [(message, category)]).

(** ** What the properties speak about *)

(** The form fields of a create or edit submission, as the handlers read
    them. *)
Definition submitted_location (rq : request) : string :=
  strip (default "" (assoc "location" (form rq))).

(** The row the create flow adds. *)
Definition created_row (rq : request) (env : environment) (st : state)
    (start_date end_date : option date) (loc : location) (current forecast : json)
    : WeatherQuery.t :=
  WeatherQuery.mk (fresh_id (table st)) (submitted_location rq)
    (Some (loc_name loc)) (loc_lat loc) (loc_lon loc) start_date end_date
    (utcnow env) (Some (json_dumps current)) (Some (json_dumps forecast)).

(** The row an edit leaves in place of [q]. *)
Definition edited_row (rq : request) (q : WeatherQuery.t)
    (start_date end_date : option date) (loc : location) (current forecast : json)
    : WeatherQuery.t :=
  WeatherQuery.mk (WeatherQuery.id q) (submitted_location rq)
    (Some (loc_name loc)) (loc_lat loc) (loc_lon loc) start_date end_date
    (WeatherQuery.created_at q)
    (Some (json_dumps current)) (Some (json_dumps forecast)).

(** A step of the create flow fails: the location is empty, a date does not
    parse, the start date is after the end date, the geocoder raises or
    finds nothing, or the weather fetch raises. *)
Definition create_step_fails (rq : request) (env : environment) (st : state) : Prop :=
  let location := submitted_location rq in
  let geocoded := geocode_location location env st in
  location = "" \/
  (exists e, parse_date (assoc "start_date" (form rq)) = Raised e) \/
  (exists e, parse_date (assoc "end_date" (form rq)) = Raised e) \/
  (exists s e, parse_date (assoc "start_date" (form rq)) = Returned (Some s) /\
               parse_date (assoc "end_date" (form rq)) = Returned (Some e) /\
               ~ date_le s e) \/
  (exists e, fst geocoded = Raised e) \/
  fst geocoded = Returned None \/
  (exists loc e, fst geocoded = Returned (Some loc) /\
     fst (get_weather_and_forecast (loc_lat loc) (loc_lon loc) env (snd geocoded))
       = Raised e).

(** The invariant of the date columns. *)
Definition dates_ordered (q : WeatherQuery.t) : Prop :=
  forall s e, WeatherQuery.start_date q = Some s -> WeatherQuery.end_date q = Some e ->
              date_le s e.

Definition table_ordered (rows : gmap Z WeatherQuery.t) : Prop :=
  map_Forall (fun _ q => dates_ordered q) rows.

(** The name is made of the first match's city name and country code. *)
Definition name_from_first_match (fields : list (string * json)) (name : string) : Prop :=
  exists city country,
    assoc "name" fields = Some (JStr city) /\
    assoc "country" fields = Some (JStr country) /\
    name = city +:+ ", " +:+ country.

(** [a.created_at < b.created_at] *)
Definition created_lt (a b : WeatherQuery.t) : Prop :=
  Is_true (lex_ltb (datetime_key (WeatherQuery.created_at a))
                   (datetime_key (WeatherQuery.created_at b))).

(** The dates of a row are calendar dates, as every [date] object is. *)
Definition dates_valid (q : WeatherQuery.t) : Prop :=
  forall d, WeatherQuery.start_date q = Some d \/ WeatherQuery.end_date q = Some d ->
            valid_date d = true.

(** What the round trip of the structured export is about: the id, the
    input, the normalized name, the coordinates and the two dates. *)
Definition stored_fields (q : WeatherQuery.t)
    : Z * string * option string * json * json * option date * option date :=
  (WeatherQuery.id q, WeatherQuery.user_input q, WeatherQuery.normalized_name q,
   WeatherQuery.lat q, WeatherQuery.lon q,
   WeatherQuery.start_date q, WeatherQuery.end_date q).

(** Reading the export back: a date is [null] or a [YYYY-MM-DD] string,
    read with the parser of the application; a name is [null] or a string. *)
Definition read_date (v : json) : option (option date) :=
  match v with
  | JNull => Some None
  | JStr text => Some <$> strptime_ymd text
  | _ => None
  end.

Definition read_name (v : json) : option (option string) :=
  match v with
  | JNull => Some None
  | JStr text => Some (Some text)
  | _ => None
  end.

Definition read_item (item : json)
    : option (Z * string * option string * json * json * option date * option date) :=
  match item with
  | JObj fields =>
      match assoc "id" fields, assoc "user_input" fields with
      | Some (JInt i), Some (JStr input) =>
          name ← assoc "normalized_name" fields ≫= read_name;
          lat ← assoc "lat" fields;
          lon ← assoc "lon" fields;
          start_date ← assoc "start_date" fields ≫= read_date;
          end_date ← assoc "end_date" fields ≫= read_date;
          Some (i, input, name, lat, lon, start_date, end_date)
      | _, _ => None
      end
  | _ => None
  end.

(** The keys of an exported item, in order. *)
Definition item_keys (item : json) : list string :=
  match item with
  | JObj fields => fields.*1
  | _ => []
  end.

(** ** Sample inputs

    Concrete requests, upstream answers and tables on which the handlers
    are run below. *)

(** Stand-ins for Python's [json.dumps], [json.loads] and [repr]. *)
Definition sample_dumps (j : json) : string :=
  match j with
  | JObj _ => "{...}"
  | JArr _ => "[...]"
  | _ => "null"
  end.

Definition sample_loads (text : string) : option json := None.

Definition sample_repr (j : json) : string := "?".

Definition sample_now : datetime := mkdatetime (mkdate 2024 1 5) 9 30 0 0.

Definition paris_match : list (string * json) :=
  [("name", JStr "Paris"); ("lat", JFloat 48.5); ("lon", JFloat 2.25);
   ("country", JStr "FR")].

(** A match without the [name] field. *)
Definition nameless_match : list (string * json) :=
  [("lat", JFloat 48.5); ("lon", JFloat 2.25); ("country", JStr "FR")].

Definition sample_current : json := JObj [("main", JObj [("temp", JInt 12)])].
Definition sample_forecast : json := JObj [("list", JArr [])].

(** An upstream that answers every call: the geocoder with one match. *)
Definition answering (first_match : list (string * json)) (rq : http_request)
    : http_result :=
  if String.eqb (url rq) "http://api.openweathermap.org/geo/1.0/direct"
  then Response 200 (Some (JArr [JObj first_match]))
  else if String.eqb (url rq) "https://api.openweathermap.org/data/2.5/weather"
  then Response 200 (Some sample_current)
  else Response 200 (Some sample_forecast).

(** An upstream whose forecast endpoint answers 503. *)
Definition forecast_failing (rq : http_request) : http_result :=
  if String.eqb (url rq) "https://api.openweathermap.org/data/2.5/forecast"
  then Response 503 None
  else answering paris_match rq.

Definition paris_env : environment := mkenv ∅ (answering paris_match) sample_now.
Definition nameless_env : environment := mkenv ∅ (answering nameless_match) sample_now.
Definition forecast_down_env : environment := mkenv ∅ forecast_failing sample_now.

(** An upstream that never answers in time. *)
Definition down_env : environment :=
  mkenv ∅ (fun _ => NoResponse Timeout) sample_now.

(** The environment variable is set, to the empty string. *)
Definition no_key_env : environment :=
  mkenv {[ "OPENWEATHER_API_KEY" := "" ]} (answering paris_match) sample_now.

Definition old_row : WeatherQuery.t :=
  WeatherQuery.mk 1 "Lyon" (Some "Lyon, FR") (JFloat 45.75) (JFloat 4.75)
    (Some (mkdate 2023 12 1)) None (mkdatetime (mkdate 2023 12 1) 8 0 0 0)
    (Some "{old current}") (Some "{old forecast}").

(** A second row, created later. *)
Definition later_row : WeatherQuery.t :=
  WeatherQuery.mk 2 "Nice" (Some "Nice, FR") (JFloat 43.75) (JFloat 7.25)
    None None (mkdatetime (mkdate 2023 12 2) 8 0 0 0)
    (Some "{}") (Some "{}").

(** A second row with the timestamp of the first. *)
Definition twin_row : WeatherQuery.t :=
  WeatherQuery.mk 2 "Nice" (Some "Nice, FR") (JFloat 43.75) (JFloat 7.25)
    None None (mkdatetime (mkdate 2023 12 1) 8 0 0 0)
    (Some "{}") (Some "{}").

Definition empty_state : state := mkstate ∅ [] [].
Definition one_row_state : state := mkstate {[ 1 := old_row ]} [] [].
Definition two_row_state : state :=
  mkstate (<[ 2 := later_row ]> {[ 1 := old_row ]}) [] [].
Definition tie_state : state :=
  mkstate (<[ 2 := twin_row ]> {[ 1 := old_row ]}) [] [].

Definition paris_post : request :=
  mkrequest "POST"
    [("location", " Paris "); ("start_date", "2024-01-01"); ("end_date", "2024-01-05")]
    JNull.

(** The start date is after the end date. *)
Definition backwards_post : request :=
  mkrequest "POST"
    [("location", "Paris"); ("start_date", "2024-02-01"); ("end_date", "2024-01-05")]
    JNull.

Definition coords_post : request :=
  mkrequest "POST" [] (JObj [("lat", JFloat 48.5); ("lon", JFloat 2.25)]).

(** The body of the scenario [{"lat": 48.85}], with a coordinate that is
    exact in binary. *)
Definition lat_only_post : request :=
  mkrequest "POST" [] (JObj [("lat", JFloat 48.5)]).

(** ** More of what the properties speak about *)

(** The primary key: the row stored under a key carries it as its [id]. *)
Definition table_keyed (rows : gmap Z WeatherQuery.t) : Prop :=
  map_Forall (fun k q => WeatherQuery.id q = k) rows.

(** A text made of blanks only. *)
Fixpoint all_blank (s : string) : bool :=
  match s with
  | EmptyString => true
  | String c rest => isspace c && all_blank rest
  end.


(** What every outbound request must carry: the configured key, which is
    not empty, and the five-second timeout. *)
Definition carries_key (env : environment) (r : http_request) : Prop :=
  assoc "appid" (params r) = Some (JStr (WEATHER_API_KEY env)) /\
  WEATHER_API_KEY env <> "" /\
  timeout r = 5.

(** A [json.dumps] and [json.loads] that agree on the two sample bodies. *)
Definition tagged_dumps (j : json) : string :=
  match j with
  | JObj (("main", _) :: _) => "current"
  | _ => "forecast"
  end.

Definition tagged_loads (text : string) : option json :=
  if String.eqb text "current" then Some sample_current
  else if String.eqb text "forecast" then Some sample_forecast
  else None.

(** A body that is a JSON array. *)
Definition array_post : request :=
  mkrequest "POST" [] (JArr [JFloat 48.5; JFloat 2.25]).

(** The location field holds blanks only. *)
Definition blank_post : request :=
  mkrequest "POST" [("location", "   ")] JNull.

(** An upstream whose geocoder finds nothing. *)
Definition no_match_env : environment :=
  mkenv ∅ (fun _ => Response 200 (Some (JArr []))) sample_now.

(** The invariant of the input column: not empty, and without blanks at
    either end. *)
Definition input_trimmed (q : WeatherQuery.t) : Prop :=
  WeatherQuery.user_input q <> "" /\
  strip (WeatherQuery.user_input q) = WeatherQuery.user_input q.




(** ** Running the monad *)

(** A lemma depends on the section variables its statement names only. *)
#[local] Set Default Proof Using "Type".

Ltac run :=
  unfold mbind, M_bind, mret, M_ret, raise, call, ask, get_table, modify_table,
    flash, requests_get, raise_for_status, response_json; cbn beta iota.

Lemma after_sending_nil st : after_sending [] st = st.
Proof. destruct st; unfold after_sending; cbn. by rewrite app_nil_r. Qed.


(** [get_weather_and_forecast], case by case on what the upstream answers. *)
Lemma get_weather_and_forecast_spec lat lon env st :
  get_weather_and_forecast lat lon env st =
  if String.eqb (WEATHER_API_KEY env) "" then
    (Raised (RuntimeError "OPENWEATHER_API_KEY is not set"), st)
  else
    match upstream env (current_request env lat lon) with
    | NoResponse why =>
        (Raised (RequestException why),
         after_sending [current_request env lat lon] st)
    | Response c1 b1 =>
        if is_error_status c1 then
          (Raised (HTTPError c1), after_sending [current_request env lat lon] st)
        else
          let st2 := after_sending
            [current_request env lat lon; forecast_request env lat lon] st in
          match upstream env (forecast_request env lat lon) with
          | NoResponse why => (Raised (RequestException why), st2)
          | Response c2 b2 =>
              if is_error_status c2 then (Raised (HTTPError c2), st2)
              else match b1, b2 with
                   | Some current, Some forecast => (Returned (current, forecast), st2)
                   | _, _ => (Raised JSONDecodeError, st2)
                   end
          end
    end.
Proof.
  unfold get_weather_and_forecast. run.
  fold (weather_params env lat lon).
  fold (current_request env lat lon) (forecast_request env lat lon).
  destruct (String.eqb (WEATHER_API_KEY env) ""); [done|].
  destruct (upstream env (current_request env lat lon)) as [why|c1 b1]; [done|].
  cbn. destruct (is_error_status c1); [done|]. cbn.
  destruct (upstream env (forecast_request env lat lon)) as [why|c2 b2];
    cbn; rewrite <- ?app_assoc; [done|].
  destruct (is_error_status c2); [done|]. cbn.
  destruct b1, b2; done.
Qed.

(** [geocode_location], case by case on what the upstream answers. *)
Lemma geocode_location_spec query env st :
  geocode_location query env st =
  if String.eqb (WEATHER_API_KEY env) "" then
    (Raised (RuntimeError "OPENWEATHER_API_KEY is not set"), st)
  else
    let st1 := after_sending [geocode_request env query] st in
    match upstream env (geocode_request env query) with
    | NoResponse why => (Raised (RequestException why), st1)
    | Response code body =>
        if is_error_status code then (Raised (HTTPError code), st1)
        else match body with
             | None => (Raised JSONDecodeError, st1)
             | Some data =>
                 if negb (truthy data) then (Returned None, st1)
                 else match data with
                      | JArr (JObj fields :: _) =>
                          match assoc "lat" fields, assoc "lon" fields with
                          | Some lat, Some lon =>
                              (Returned (Some (mklocation
                                 (py_str (default JNull (assoc "name" fields)) +:+ ", "
                                  +:+ py_str (default JNull (assoc "country" fields)))
                                 lat lon)), st1)
                          | None, _ => (Raised (KeyError (JStr "lat")), st1)
                          | Some _, None => (Raised (KeyError (JStr "lon")), st1)
                          end
                      | JArr (_ :: _) | JStr _ => (Raised AttributeError, st1)
                      | JObj _ => (Raised (KeyError (JInt 0)), st1)
                      | JArr [] => (Raised IndexError, st1)
                      | _ => (Raised TypeError, st1)
                      end
             end
    end.
Proof.
  unfold geocode_location. run. fold (geocode_request env query).
  destruct (String.eqb (WEATHER_API_KEY env) ""); [done|].
  destruct (upstream env (geocode_request env query)) as [why|code body]; [done|].
  cbn. destruct (is_error_status code); [done|]. cbn.
  destruct body as [data|]; [|done]. run.
  destruct (negb (truthy data)) eqn:Hfalsy; [done|].
  unfold getitem_0, dict_get, getitem.
  destruct data as [| | | |s|items|fields]; run; try done.
  - destruct s; done.
  - destruct items as [|first rest]; run; [done|].
    destruct first; run; try done.
    destruct (assoc "lat" fields); run; [|done].
    destruct (assoc "lon" fields); done.
Qed.

(** The clients write neither the table nor the flashed messages; they
    only add to the requests sent. *)
Lemma geocode_location_frame query env st :
  exists reqs, snd (geocode_location query env st) = after_sending reqs st.
Proof.
  rewrite geocode_location_spec.
  exists (if String.eqb (WEATHER_API_KEY env) "" then [] else [geocode_request env query]).
  repeat case_match; cbn; try done; by rewrite after_sending_nil.
Qed.

Lemma get_weather_and_forecast_frame lat lon env st :
  exists reqs, snd (get_weather_and_forecast lat lon env st) = after_sending reqs st
    /\ Forall (fun r => r = current_request env lat lon \/ r = forecast_request env lat lon) reqs.
Proof.
  rewrite get_weather_and_forecast_spec.
  repeat case_match; cbn;
    first [ exists []; rewrite after_sending_nil; split; [done|constructor]
          | eexists; split; [reflexivity|];
            repeat (apply Forall_cons_2; [auto|]); apply Forall_nil_2 ].
Qed.

(** C9: when the configured credential is empty, both the geocoding client
    and the weather client raise the configuration error
    [RuntimeError("OPENWEATHER_API_KEY is not set")] and leave the state as
    it was, so no request has gone out; the credential is the value of the
    environment variable [OPENWEATHER_API_KEY] when it is set and the
    built-in default otherwise. *)
Theorem no_credential_fails_fast env :
  (forall v, environ env !! "OPENWEATHER_API_KEY" = Some v -> WEATHER_API_KEY env = v) /\
  (environ env !! "OPENWEATHER_API_KEY" = None ->
   WEATHER_API_KEY env = "54c3e5436355a0e40913a9976b9e75ef") /\
  (WEATHER_API_KEY env = "" ->
   forall st query lat lon,
     geocode_location query env st
       = (Raised (RuntimeError "OPENWEATHER_API_KEY is not set"), st) /\
     get_weather_and_forecast lat lon env st
       = (Raised (RuntimeError "OPENWEATHER_API_KEY is not set"), st)).
Proof.
  unfold WEATHER_API_KEY. split; [|split].
  - intros v Hv. by rewrite Hv.
  - intros Hv. by rewrite Hv.
  - intros Hkey st query lat lon.
    rewrite geocode_location_spec, get_weather_and_forecast_spec.
    unfold WEATHER_API_KEY. by rewrite Hkey.
Qed.

(** C4: the weather client returns a pair only when both calls came back
    with a status [raise_for_status] accepts, and then both requests went
    out and the pair holds the two bodies; when the current-conditions call
    fails the client raises and the forecast request is not among the
    requests sent; when the forecast call fails the client raises; in every
    case the table is left as it was. *)
Theorem weather_fetch_all_or_nothing lat lon env st :
  let result := get_weather_and_forecast lat lon env st in
  (forall current forecast,
     fst result = Returned (current, forecast) ->
     exists c1 c2,
       upstream env (current_request env lat lon) = Response c1 (Some current) /\
       is_error_status c1 = false /\
       upstream env (forecast_request env lat lon) = Response c2 (Some forecast) /\
       is_error_status c2 = false /\
       sent (snd result)
         = sent st ++ [current_request env lat lon; forecast_request env lat lon]) /\
  (call_failed (upstream env (current_request env lat lon)) ->
     (exists e, fst result = Raised e) /\
     forecast_request env lat lon ∉ drop (length (sent st)) (sent (snd result))) /\
  (call_failed (upstream env (forecast_request env lat lon)) ->
     exists e, fst result = Raised e) /\
  table (snd result) = table st.
Proof.
  assert (Hne : forecast_request env lat lon <> current_request env lat lon)
    by (unfold forecast_request, current_request; congruence).
  cbn zeta. rewrite get_weather_and_forecast_spec.
  destruct (String.eqb (WEATHER_API_KEY env) "") eqn:Hkey;
    [|destruct (upstream env (current_request env lat lon)) as [why|c1 b1] eqn:Hcur;
      [|destruct (is_error_status c1) eqn:Hc1;
        [|destruct (upstream env (forecast_request env lat lon)) as [why|c2 b2] eqn:Hfore;
          [|destruct (is_error_status c2) eqn:Hc2;
            [|destruct b1 as [cur|], b2 as [fore|]]]]]];
    cbn; (split; [|split; [|split]]); try done.
  all: try (intros Hfail; cbn in Hfail; congruence).
  all: try (intros _; eauto; fail).
  all: try (intros _; split; [eauto|]).
  all: try (rewrite drop_ge by lia; apply not_elem_of_nil).
  all: try (rewrite drop_app_length, list_elem_of_singleton; done).
  all: try (intros current forecast [= <- <-]; eauto 10).
Qed.

(** *** Dates *)

Lemma date_gtb_spec a b : date_gtb a b = true <-> ~ date_le a b.
Proof.
  unfold date_gtb, date_le, date_key, lex_ltb.
  destruct a as [ya ma da], b as [yb mb db]; cbn.
  rewrite ?orb_true_iff, ?andb_true_iff, ?orb_true_iff, ?andb_true_iff,
    ?Z.ltb_lt, ?Z.eqb_eq.
  intuition (discriminate || lia).
Qed.

Lemma date_gtb_false a b : date_gtb a b = false <-> date_le a b.
Proof.
  unfold date_gtb, date_le, date_key, lex_ltb.
  destruct a as [ya ma da], b as [yb mb db]; cbn.
  rewrite ?orb_false_iff, ?andb_false_iff, ?orb_false_iff, ?andb_false_iff,
    ?Z.ltb_ge, ?Z.eqb_neq.
  intuition lia.
Qed.

Lemma starts_after_end_false s e :
  starts_after_end (Some s) (Some e) = false <-> date_le s e.
Proof. unfold starts_after_end. apply date_gtb_false. Qed.

Lemma parse_date_raises d e : parse_date d = Raised e -> is_ValueError e = true.
Proof.
  unfold parse_date. repeat case_match; intros; simplify_eq; done.
Qed.

(** *** The table *)

Lemma foldr_max_ge (l : list Z) x : x ∈ l -> x <= foldr Z.max 0 l.
Proof.
  induction 1 as [x l|x y l _ IH]; cbn; lia.
Qed.

Lemma fresh_id_fresh (rows : gmap Z WeatherQuery.t) : rows !! fresh_id rows = None.
Proof.
  destruct (rows !! fresh_id rows) as [q|] eqn:Hq; [|done].
  apply elem_of_map_to_list in Hq.
  assert (fresh_id rows ∈ (map_to_list rows).*1) as Hin
    by (apply list_elem_of_fmap; by exists (fresh_id rows, q)).
  apply foldr_max_ge in Hin. unfold fresh_id in Hin at 1. unfold fresh_id in Hin. lia.
Qed.

(** *** The create flow, step by step *)

Lemma index_get rq env st :
  String.eqb (method rq) "POST" = false ->
  index rq env st = (Returned (RenderIndex None None None), st).
Proof. intros H. unfold index. by rewrite H. Qed.

Lemma index_post rq env st :
  method rq = "POST" ->
  index rq env st =
  let location := submitted_location rq in
  let back msg st' := (Returned (Redirect "index" None), after_flash msg "error" st') in
  if String.eqb location "" then back "Please enter a location." st
  else
    match parse_date (assoc "start_date" (form rq)),
          parse_date (assoc "end_date" (form rq)) with
    | Returned start_date, Returned end_date =>
        if starts_after_end start_date end_date then
          back "Start date must be before end date." st
        else
          match geocode_location location env st with
          | (Raised _, st1) => back "Error contacting geocoding service." st1
          | (Returned None, st1) =>
              back "Could not find that location. Try a more specific name." st1
          | (Returned (Some loc), st1) =>
              match get_weather_and_forecast (loc_lat loc) (loc_lon loc) env st1 with
              | (Raised _, st2) => back "Error retrieving weather data." st2
              | (Returned (current, forecast), st2) =>
                  let row := created_row rq env st2 start_date end_date loc
                               current forecast in
                  (Returned (RenderIndex (Some current) (Some forecast) (Some row)),
                   with_table (insert (fresh_id (table st2)) row) st2)
              end
          end
    | _, _ => back "Invalid date format. Use YYYY-MM-DD." st
    end.
Proof.
  intros Hpost. unfold index, submitted_location. rewrite Hpost. cbn [String.eqb Ascii.eqb Bool.eqb].
  cbn zeta.
  destruct (String.eqb _ ""); [done|].
  unfold parse_dates, attempt. run.
  destruct (parse_date (assoc "start_date" (form rq))) as [start_date|e1] eqn:H1.
  2:{ run. rewrite (parse_date_raises _ _ H1). done. }
  destruct (parse_date (assoc "end_date" (form rq))) as [end_date|e2] eqn:H2.
  2:{ run. rewrite (parse_date_raises _ _ H2). done. }
  run. destruct (starts_after_end start_date end_date); [done|].
  destruct (geocode_location _ env st) as [[[loc|]|e] st1]; run; try done.
  destruct (get_weather_and_forecast _ _ env st1) as [[[current forecast]|e] st2];
    run; try done.
Qed.

(** *** The edit flow, step by step *)

Lemma edit_missing query_id rq env st :
  table st !! query_id = None ->
  edit query_id rq env st = (Raised NotFound404, st).
Proof. intros H. unfold edit, get_or_404. run. by rewrite H. Qed.

Lemma edit_post query_id rq env st q :
  table st !! query_id = Some q ->
  method rq = "POST" ->
  edit query_id rq env st =
  let location := submitted_location rq in
  let back msg st' :=
    (Returned (Redirect "edit" (Some (WeatherQuery.id q))), after_flash msg "error" st') in
  if String.eqb location "" then back "Location cannot be empty." st
  else
    match parse_date (assoc "start_date" (form rq)),
          parse_date (assoc "end_date" (form rq)) with
    | Returned start_date, Returned end_date =>
        if starts_after_end start_date end_date then
          back "Start date must be before end date." st
        else
          match geocode_location location env st with
          | (Raised e, st1) => (Raised e, st1)
          | (Returned None, st1) => back "Could not find that location." st1
          | (Returned (Some loc), st1) =>
              match get_weather_and_forecast (loc_lat loc) (loc_lon loc) env st1 with
              | (Raised e, st2) => (Raised e, st2)
              | (Returned (current, forecast), st2) =>
                  (Returned (Redirect "detail" (Some (WeatherQuery.id q))),
                   after_flash "Record updated." "success"
                     (with_table
                        (insert (WeatherQuery.id q)
                           (edited_row rq q start_date end_date loc current forecast))
                        st2))
              end
          end
    | _, _ => back "Invalid date format." st
    end.
Proof.
  intros Hq Hpost. unfold edit, get_or_404, submitted_location. run.
  rewrite Hq, Hpost. cbn [String.eqb Ascii.eqb Bool.eqb]. run.
  destruct (String.eqb _ ""); [done|].
  unfold parse_dates, attempt. run.
  destruct (parse_date (assoc "start_date" (form rq))) as [start_date|e1] eqn:H1.
  2:{ run. rewrite (parse_date_raises _ _ H1). done. }
  destruct (parse_date (assoc "end_date" (form rq))) as [end_date|e2] eqn:H2.
  2:{ run. rewrite (parse_date_raises _ _ H2). done. }
  run. destruct (starts_after_end start_date end_date); [done|].
  destruct (geocode_location _ env st) as [[[loc|]|e] st1]; run; try done.
  destruct (get_weather_and_forecast _ _ env st1) as [[[current forecast]|e] st2];
    run; try done.
Qed.

(** The edit flow has no [try] around its two client calls: what the
    geocoder or the weather client raises leaves the handler as it is. *)
Lemma edit_propagates_geocode_error query_id rq env st q sd ed e :
  table st !! query_id = Some q ->
  method rq = "POST" ->
  submitted_location rq <> "" ->
  parse_date (assoc "start_date" (form rq)) = Returned sd ->
  parse_date (assoc "end_date" (form rq)) = Returned ed ->
  starts_after_end sd ed = false ->
  fst (geocode_location (submitted_location rq) env st) = Raised e ->
  fst (edit query_id rq env st) = Raised e.
Proof.
  intros Hq Hpost Hloc Hs He Hord Hgeo. rewrite (edit_post _ _ _ _ _ Hq Hpost). cbn zeta.
  apply String.eqb_neq in Hloc. rewrite Hloc, Hs, He, Hord.
  destruct (geocode_location _ env st) as [[[loc|]|e'] st1]; cbn in *; congruence.
Qed.

Lemma edit_propagates_weather_error query_id rq env st q sd ed loc st1 e :
  table st !! query_id = Some q ->
  method rq = "POST" ->
  submitted_location rq <> "" ->
  parse_date (assoc "start_date" (form rq)) = Returned sd ->
  parse_date (assoc "end_date" (form rq)) = Returned ed ->
  starts_after_end sd ed = false ->
  geocode_location (submitted_location rq) env st = (Returned (Some loc), st1) ->
  fst (get_weather_and_forecast (loc_lat loc) (loc_lon loc) env st1) = Raised e ->
  fst (edit query_id rq env st) = Raised e.
Proof.
  intros Hq Hpost Hloc Hs He Hord Hgeo Hfetch.
  rewrite (edit_post _ _ _ _ _ Hq Hpost). cbn zeta.
  apply String.eqb_neq in Hloc. rewrite Hloc, Hs, He, Hord, Hgeo.
  destruct (get_weather_and_forecast _ _ env st1) as [[[current forecast]|e'] st2];
    cbn in *; congruence.
Qed.

Lemma starts_after_end_true sd ed :
  starts_after_end sd ed = true ->
  exists s e, sd = Some s /\ ed = Some e /\ ~ date_le s e.
Proof.
  destruct sd as [s|], ed as [e|]; cbn; try done.
  intros H. apply date_gtb_spec in H. eauto.
Qed.



(** C2: on a POST to the create flow, when a step fails (empty location,
    a date that does not parse, start date after end date, the geocoder
    raising or finding nothing, the weather fetch raising) the table is
    what it was, the response is the redirect to the form and a message of
    category [error] is flashed; when no step fails, exactly one row is
    added, under a key that was free. *)
Theorem create_writes_only_on_success rq env st :
  method rq = "POST" ->
  let result := index rq env st in
  (create_step_fails rq env st ->
     table (snd result) = table st /\
     fst result = Returned (Redirect "index" None) /\
     exists msg, flashed (snd result) = flashed st ++ [(msg, "error")]) /\
  (~ create_step_fails rq env st ->
     exists start_date end_date loc current forecast st1 st2,
       parse_date (assoc "start_date" (form rq)) = Returned start_date /\
       parse_date (assoc "end_date" (form rq)) = Returned end_date /\
       geocode_location (submitted_location rq) env st = (Returned (Some loc), st1) /\
       get_weather_and_forecast (loc_lat loc) (loc_lon loc) env st1
         = (Returned (current, forecast), st2) /\
       let row := created_row rq env st start_date end_date loc current forecast in
       table st !! fresh_id (table st) = None /\
       table (snd result) = <[fresh_id (table st) := row]> (table st) /\
       fst result = Returned (RenderIndex (Some current) (Some forecast) (Some row))).
Proof.
  intros Hpost. cbn zeta. rewrite (index_post _ _ _ Hpost). cbn zeta.
  unfold create_step_fails. cbn zeta.
  destruct (String.eqb (submitted_location rq) "") eqn:Hloc.
  { apply String.eqb_eq in Hloc.
    split; [intros _; cbn; eauto | intros Hn; exfalso; apply Hn; auto]. }
  apply String.eqb_neq in Hloc.
  destruct (parse_date (assoc "start_date" (form rq))) as [sd|e1] eqn:Hs.
  2:{ split; [intros _; cbn; eauto | intros Hn; exfalso; apply Hn; eauto 10]. }
  destruct (parse_date (assoc "end_date" (form rq))) as [ed|e2] eqn:He.
  2:{ split; [intros _; cbn; eauto | intros Hn; exfalso; apply Hn; eauto 10]. }
  destruct (starts_after_end sd ed) eqn:Hord.
  { apply starts_after_end_true in Hord as (s & e & -> & -> & Hgt).
    split; [intros _; cbn; eauto | intros Hn; exfalso; apply Hn].
    do 3 right. left. eauto. }
  destruct (geocode_location_frame (submitted_location rq) env st) as [reqs1 Hf1].
  destruct (geocode_location (submitted_location rq) env st) as [[[loc|]|e] st1] eqn:Hgeo;
    cbn [fst snd] in *; subst st1.
  2:{ split; [intros _; cbn; eauto | intros Hn; exfalso; apply Hn; eauto 10]. }
  2:{ split; [intros _; cbn; eauto | intros Hn; exfalso; apply Hn; eauto 10]. }
  destruct (get_weather_and_forecast_frame (loc_lat loc) (loc_lon loc) env
              (after_sending reqs1 st)) as (reqs2 & Hf2 & _).
  destruct (get_weather_and_forecast (loc_lat loc) (loc_lon loc) env _)
    as [[[current forecast]|e] st2] eqn:Hfetch; cbn [fst snd] in *; subst st2.
  2:{ split; [intros _; cbn; eauto
             | intros Hn; exfalso; apply Hn; do 6 right;
               exists loc, e; by rewrite Hfetch]. }
  split.
  - intros [?|[[e ?]|[[e ?]|[(s & e & ? & ? & Hgt)|[[e ?]|[?|(loc' & e & ? & Hr)]]]]]];
      simplify_eq.
    + exfalso. apply Hgt. by apply starts_after_end_false.
    + by rewrite Hfetch in Hr.
  - intros _. exists sd, ed, loc, current, forecast. do 2 eexists.
    repeat split; try done.
    apply fresh_id_fresh.
Qed.

(** *** What a returning client call tells *)

Lemma get_weather_and_forecast_returned lat lon env st current forecast st' :
  get_weather_and_forecast lat lon env st = (Returned (current, forecast), st') ->
  exists c1 c2,
    upstream env (current_request env lat lon) = Response c1 (Some current) /\
    is_error_status c1 = false /\
    upstream env (forecast_request env lat lon) = Response c2 (Some forecast) /\
    is_error_status c2 = false /\
    st' = after_sending [current_request env lat lon; forecast_request env lat lon] st.
Proof.
  rewrite get_weather_and_forecast_spec. cbn zeta.
  repeat case_match; intros; simplify_eq. eauto 10.
Qed.

Lemma geocode_location_returned query env st loc st' :
  geocode_location query env st = (Returned (Some loc), st') ->
  exists code fields rest,
    upstream env (geocode_request env query)
      = Response code (Some (JArr (JObj fields :: rest))) /\
    is_error_status code = false /\
    assoc "lat" fields = Some (loc_lat loc) /\
    assoc "lon" fields = Some (loc_lon loc) /\
    loc_name loc = py_str (default JNull (assoc "name" fields)) +:+ ", "
                   +:+ py_str (default JNull (assoc "country" fields)) /\
    st' = after_sending [geocode_request env query] st.
Proof.
  rewrite geocode_location_spec. cbn zeta.
  repeat case_match; intros; simplify_eq. cbn. eauto 10.
Qed.

Lemma edit_get query_id rq env st q :
  table st !! query_id = Some q ->
  String.eqb (method rq) "POST" = false ->
  edit query_id rq env st = (Returned (RenderEdit q), st).
Proof. intros Hq Hm. unfold edit, get_or_404. run. by rewrite Hq, Hm. Qed.

(** C10, as the code has it: a successful resolution takes its name from
    the first match as [str(name) + ", " + str(country)], where a field
    that is absent (or null) is printed as the text [None]; when both
    fields are strings the name is ["<city>, <country code>"]. *)
Theorem geocode_name_format query env st loc st' :
  geocode_location query env st = (Returned (Some loc), st') ->
  exists code fields rest,
    upstream env (geocode_request env query)
      = Response code (Some (JArr (JObj fields :: rest))) /\
    loc_name loc = py_str (default JNull (assoc "name" fields)) +:+ ", "
                   +:+ py_str (default JNull (assoc "country" fields)) /\
    (forall city country,
       assoc "name" fields = Some (JStr city) ->
       assoc "country" fields = Some (JStr country) ->
       loc_name loc = city +:+ ", " +:+ country) /\
    (assoc "name" fields = None ->
       loc_name loc = "None, " +:+ py_str (default JNull (assoc "country" fields))) /\
    (assoc "country" fields = None ->
       loc_name loc = py_str (default JNull (assoc "name" fields)) +:+ ", None").
Proof.
  intros H. apply geocode_location_returned in H
    as (code & fields & rest & Hup & _ & _ & _ & Hname & _).
  exists code, fields, rest. repeat split; try done.
  - intros city country Hc Hk. by rewrite Hname, Hc, Hk.
  - intros Hc. by rewrite Hname, Hc.
  - intros Hk. by rewrite Hname, Hk.
Qed.

Lemma by_coords_spec rq env st fields :
  get_json rq = JObj fields ->
  by_coords rq env st =
  let lat := default JNull (assoc "lat" fields) in
  let lon := default JNull (assoc "lon" fields) in
  if is_None lat || is_None lon then
    (Returned (Jsonify 400 (JObj [("error", JStr "Missing coordinates")])), st)
  else
    match get_weather_and_forecast lat lon env st with
    | (Returned (current, forecast), st') =>
        (Returned (Jsonify 200 (JObj [("current", current); ("forecast", forecast)])), st')
    | (Raised _, st') =>
        (Returned (Jsonify 500 (JObj [("error", JStr "Weather API error")])), st')
    end.
Proof.
  intros Hbody. unfold by_coords, dict_get, attempt. rewrite Hbody. run. cbn zeta.
  destruct (is_None _ || is_None _); [done|].
  destruct (get_weather_and_forecast _ _ env st) as [[[current forecast]|e] st2]; done.
Qed.

(** C8: with a JSON object as body, the coordinate lookup answers 400
    "Missing coordinates" and leaves the state untouched (no request goes
    out) when [lat] or [lon] is absent, and also when one of them is null;
    with both present and not null its answer is the fetch's: 500 "Weather
    API error" when the fetch raises, the pair as [current]/[forecast] when
    it returns; in every case the table is what it was and no request to
    the geocoding endpoint is among those sent. *)
Theorem by_coords_outcomes rq env st fields :
  get_json rq = JObj fields ->
  let missing := (Returned (Jsonify 400 (JObj [("error", JStr "Missing coordinates")])), st) in
  (assoc "lat" fields = None \/ assoc "lon" fields = None ->
     by_coords rq env st = missing) /\
  (assoc "lat" fields = Some JNull \/ assoc "lon" fields = Some JNull ->
     by_coords rq env st = missing) /\
  (forall lat lon,
     assoc "lat" fields = Some lat -> assoc "lon" fields = Some lon ->
     lat <> JNull -> lon <> JNull ->
     (forall e st', get_weather_and_forecast lat lon env st = (Raised e, st') ->
        by_coords rq env st
          = (Returned (Jsonify 500 (JObj [("error", JStr "Weather API error")])), st')) /\
     (forall current forecast st',
        get_weather_and_forecast lat lon env st = (Returned (current, forecast), st') ->
        by_coords rq env st
          = (Returned (Jsonify 200 (JObj [("current", current); ("forecast", forecast)])),
             st'))) /\
  (table (snd (by_coords rq env st)) = table st /\
   exists reqs, sent (snd (by_coords rq env st)) = sent st ++ reqs /\
     Forall (fun r => url r <> "http://api.openweathermap.org/geo/1.0/direct") reqs).
Proof.
  intros Hbody. cbn zeta. rewrite (by_coords_spec _ _ _ _ Hbody). cbn zeta.
  assert (Hframe : forall o : outcome response,
            table (snd (o, st)) = table st /\
            exists reqs : list http_request,
              sent (snd (o, st)) = sent st ++ reqs /\
              Forall (fun r => url r <> "http://api.openweathermap.org/geo/1.0/direct") reqs)
    by (intros o; split; [done|]; exists []; cbn; by rewrite app_nil_r).
  destruct (assoc "lat" fields) as [lat|] eqn:Hlat; cbn [default from_option id is_None orb].
  2:{ split; [done|]. split; [done|]. split; [done|]. apply Hframe. }
  destruct (assoc "lon" fields) as [lon|] eqn:Hlon; cbn [default from_option id is_None].
  2:{ rewrite orb_true_r. split; [done|]. split; [done|]. split; [done|]. apply Hframe. }
  destruct (is_None lat || is_None lon) eqn:Hnone.
  { split; [done|]. split; [done|]. split; [|apply Hframe].
    intros lat' lon' ? ? Hl1 Hl2. simplify_eq. destruct lat', lon'; done. }
  apply orb_false_iff in Hnone as [Hn1 Hn2].
  destruct (get_weather_and_forecast_frame lat lon env st) as (reqs & Hf & Hreqs).
  assert (Hgeo : Forall (fun r => url r <> "http://api.openweathermap.org/geo/1.0/direct") reqs)
    by (eapply Forall_impl; [exact Hreqs|]; intros r [->| ->]; done).
  split; [intros [?|?]; simplify_eq|].
  split; [intros [?|?]; simplify_eq; done|].
  destruct (get_weather_and_forecast lat lon env st) as [[[current forecast]|e] st2]
    eqn:Hfetch; cbn [fst snd] in *; subst st2.
  - split; [|split; [done|eauto]].
    intros lat' lon' ? ? _ _. simplify_eq. split; intros; congruence.
  - split; [|split; [done|eauto]].
    intros lat' lon' ? ? _ _. simplify_eq. split; intros; congruence.
Qed.

(** *** The date invariant *)

Lemma parse_date_parsed raw d :
  strptime_ymd raw = Some d -> parse_date (Some raw) = Returned (Some d).
Proof.
  intros H. unfold parse_date.
  destruct (String.eqb raw "") eqn:Hraw.
  - apply String.eqb_eq in Hraw. subst raw. discriminate H.
  - by rewrite H.
Qed.

Lemma dates_ordered_row sd ed i u n la lo c w f :
  starts_after_end sd ed = false ->
  dates_ordered (WeatherQuery.mk i u n la lo sd ed c w f).
Proof.
  intros H s e Hs He. cbn in *. subst. by apply starts_after_end_false.
Qed.

Lemma index_keeps_order rq env st :
  table_ordered (table st) -> table_ordered (table (snd (index rq env st))).
Proof.
  intros Hinv.
  destruct (String.eqb (method rq) "POST") eqn:Hm.
  2:{ by rewrite (index_get _ _ _ Hm). }
  apply String.eqb_eq in Hm. rewrite (index_post _ _ _ Hm). cbn zeta.
  destruct (String.eqb (submitted_location rq) ""); [done|].
  destruct (parse_date (assoc "start_date" (form rq))) as [sd|]; [|done].
  destruct (parse_date (assoc "end_date" (form rq))) as [ed|]; [|done].
  destruct (starts_after_end sd ed) eqn:Hord; [done|].
  destruct (geocode_location_frame (submitted_location rq) env st) as [reqs1 Hf1].
  destruct (geocode_location (submitted_location rq) env st) as [[[loc|]|e] st1];
    cbn [fst snd] in *; subst st1; try done.
  destruct (get_weather_and_forecast_frame (loc_lat loc) (loc_lon loc) env
              (after_sending reqs1 st)) as (reqs2 & Hf2 & _).
  destruct (get_weather_and_forecast (loc_lat loc) (loc_lon loc) env _)
    as [[[current forecast]|e] st2]; cbn [fst snd] in *; subst st2; try done.
  cbn. apply map_Forall_insert_2; [|done]. by apply dates_ordered_row.
Qed.

Lemma edit_keeps_order query_id rq env st :
  table_ordered (table st) -> table_ordered (table (snd (edit query_id rq env st))).
Proof.
  intros Hinv.
  destruct (table st !! query_id) as [q|] eqn:Hq.
  2:{ by rewrite (edit_missing _ _ _ _ Hq). }
  destruct (String.eqb (method rq) "POST") eqn:Hm.
  2:{ by rewrite (edit_get _ _ _ _ _ Hq Hm). }
  apply String.eqb_eq in Hm. rewrite (edit_post _ _ _ _ _ Hq Hm). cbn zeta.
  destruct (String.eqb (submitted_location rq) ""); [done|].
  destruct (parse_date (assoc "start_date" (form rq))) as [sd|]; [|done].
  destruct (parse_date (assoc "end_date" (form rq))) as [ed|]; [|done].
  destruct (starts_after_end sd ed) eqn:Hord; [done|].
  destruct (geocode_location_frame (submitted_location rq) env st) as [reqs1 Hf1].
  destruct (geocode_location (submitted_location rq) env st) as [[[loc|]|e] st1];
    cbn [fst snd] in *; subst st1; try done.
  destruct (get_weather_and_forecast_frame (loc_lat loc) (loc_lon loc) env
              (after_sending reqs1 st)) as (reqs2 & Hf2 & _).
  destruct (get_weather_and_forecast (loc_lat loc) (loc_lon loc) env _)
    as [[[current forecast]|e] st2]; cbn [fst snd] in *; subst st2; try done.
  cbn. apply map_Forall_insert_2; [|done]. by apply dates_ordered_row.
Qed.

(** C3: the create and the edit flow keep the invariant that a row with
    both dates has [start_date <= end_date]; a POST whose two dates parse
    and whose start date is after the end date is answered with the
    redirect to the form and one flashed error, the state being otherwise
    what it was: nothing is written and no request goes out. *)
Theorem date_order_enforced_at_write query_id rq env st :
  (table_ordered (table st) ->
     table_ordered (table (snd (index rq env st))) /\
     table_ordered (table (snd (edit query_id rq env st)))) /\
  (forall start_raw end_raw s e,
     method rq = "POST" ->
     assoc "start_date" (form rq) = Some start_raw -> strptime_ymd start_raw = Some s ->
     assoc "end_date" (form rq) = Some end_raw -> strptime_ymd end_raw = Some e ->
     ~ date_le s e ->
     index rq env st
       = (Returned (Redirect "index" None),
          after_flash (if String.eqb (submitted_location rq) ""
                       then "Please enter a location."
                       else "Start date must be before end date.") "error" st) /\
     forall q, table st !! query_id = Some q ->
       edit query_id rq env st
         = (Returned (Redirect "edit" (Some (WeatherQuery.id q))),
            after_flash (if String.eqb (submitted_location rq) ""
                         then "Location cannot be empty."
                         else "Start date must be before end date.") "error" st)).
Proof.
  split.
  - intros Hinv. split; [by apply index_keeps_order | by apply edit_keeps_order].
  - intros start_raw end_raw s e Hm Hs Hps He Hpe Hgt.
    apply date_gtb_spec in Hgt.
    split; [|intros q Hq].
    + rewrite (index_post _ _ _ Hm). cbn zeta.
      rewrite Hs, He, (parse_date_parsed _ _ Hps), (parse_date_parsed _ _ Hpe).
      unfold starts_after_end. rewrite Hgt. by destruct (String.eqb _ "").
    + rewrite (edit_post _ _ _ _ _ Hq Hm). cbn zeta.
      rewrite Hs, He, (parse_date_parsed _ _ Hps), (parse_date_parsed _ _ Hpe).
      unfold starts_after_end. rewrite Hgt. by destruct (String.eqb _ "").
Qed.

(** C5: an edit that succeeds (it answers with the redirect to the detail
    page) found the row, sent the geocoding request and then the two
    weather requests during this very call, and leaves under the row's key
    the row made of the submitted location, the resolved name and
    coordinates, the parsed dates and the serialised bodies of those two
    responses, with the [id] and [created_at] the row had; no other row
    changes. *)
Theorem edit_refreshes_record query_id rq env st target st' :
  edit query_id rq env st = (Returned (Redirect "detail" target), st') ->
  exists q start_date end_date loc current forecast c1 c2,
    table st !! query_id = Some q /\
    parse_date (assoc "start_date" (form rq)) = Returned start_date /\
    parse_date (assoc "end_date" (form rq)) = Returned end_date /\
    fst (geocode_location (submitted_location rq) env st) = Returned (Some loc) /\
    upstream env (current_request env (loc_lat loc) (loc_lon loc))
      = Response c1 (Some current) /\
    upstream env (forecast_request env (loc_lat loc) (loc_lon loc))
      = Response c2 (Some forecast) /\
    sent st' = sent st ++ [geocode_request env (submitted_location rq);
                           current_request env (loc_lat loc) (loc_lon loc);
                           forecast_request env (loc_lat loc) (loc_lon loc)] /\
    let q' := edited_row rq q start_date end_date loc current forecast in
    table st' = <[WeatherQuery.id q := q']> (table st) /\
    WeatherQuery.id q' = WeatherQuery.id q /\
    WeatherQuery.created_at q' = WeatherQuery.created_at q /\
    WeatherQuery.user_input q' = submitted_location rq /\
    WeatherQuery.normalized_name q' = Some (loc_name loc) /\
    WeatherQuery.lat q' = loc_lat loc /\
    WeatherQuery.lon q' = loc_lon loc /\
    WeatherQuery.start_date q' = start_date /\
    WeatherQuery.end_date q' = end_date /\
    WeatherQuery.current_weather_json q' = Some (json_dumps current) /\
    WeatherQuery.forecast_json q' = Some (json_dumps forecast).
Proof.
  intros Hedit.
  destruct (table st !! query_id) as [q|] eqn:Hq.
  2:{ by rewrite (edit_missing _ _ _ _ Hq) in Hedit. }
  destruct (String.eqb (method rq) "POST") eqn:Hm.
  2:{ by rewrite (edit_get _ _ _ _ _ Hq Hm) in Hedit. }
  apply String.eqb_eq in Hm. rewrite (edit_post _ _ _ _ _ Hq Hm) in Hedit.
  cbn zeta in Hedit.
  destruct (String.eqb (submitted_location rq) ""); [done|].
  destruct (parse_date (assoc "start_date" (form rq))) as [sd|]; [|done].
  destruct (parse_date (assoc "end_date" (form rq))) as [ed|]; [|done].
  destruct (starts_after_end sd ed); [done|].
  destruct (geocode_location (submitted_location rq) env st) as [[[loc|]|e] st1] eqn:Hgeo;
    try done.
  destruct (get_weather_and_forecast (loc_lat loc) (loc_lon loc) env st1)
    as [[[current forecast]|e] st2] eqn:Hfetch; try done.
  apply geocode_location_returned in Hgeo as (_ & _ & _ & _ & _ & _ & _ & _ & ->).
  apply get_weather_and_forecast_returned in Hfetch
    as (c1 & c2 & Hc & _ & Hf & _ & ->).
  injection Hedit as _ <-.
  exists q, sd, ed, loc, current, forecast, c1, c2.
  cbn. rewrite <- app_assoc. done.
Qed.

(** *** Printing a date and reading it back *)

Lemma Z_range_cases (P : Z -> Prop) lo n :
  Forall P (seqZ lo n) -> forall k, lo <= k < lo + n -> P k.
Proof.
  intros H k Hk. rewrite Forall_forall in H. apply H. by apply elem_of_seqZ.
Qed.

Lemma digit_of_char_of_digit k : digit_of_char (char_of_digit k) = Some (k mod 10).
Proof.
  unfold char_of_digit.
  assert (Hr : 0 <= k mod 10 < 0 + 10) by (apply Z.mod_pos_bound; lia).
  revert Hr. generalize (k mod 10). intros r.
  apply (Z_range_cases (fun r => digit_of_char (ascii_of_nat (Z.to_nat (48 + r))) = Some r)).
  let l := eval vm_compute in (seqZ 0 10) in change (seqZ 0 10) with l.
  repeat (constructor; [reflexivity|]). constructor.
Qed.

Lemma scan_year_fmt4 y rest :
  0 <= y <= 9999 -> scan_year (fmt4 y rest) = Some (y, rest).
Proof.
  clear json_dumps json_loads py_repr.
  intros Hy. unfold fmt4, fmt2, scan_year.
  rewrite !digit_of_char_of_digit. do 2 f_equal.
  Z.div_mod_to_equations. lia.
Qed.

Lemma scan_month_fmt2 m rest :
  1 <= m < 1 + 12 -> scan_month (fmt2 m rest) = Some (m, rest).
Proof.
  revert m.
  apply (Z_range_cases (fun m => scan_month (fmt2 m rest) = Some (m, rest))).
  let l := eval vm_compute in (seqZ 1 12) in change (seqZ 1 12) with l.
  repeat (constructor; [reflexivity|]). constructor.
Qed.

Lemma scan_day_fmt2 d rest :
  1 <= d < 1 + 31 -> scan_day (fmt2 d rest) = Some (d, rest).
Proof.
  revert d.
  apply (Z_range_cases (fun d => scan_day (fmt2 d rest) = Some (d, rest))).
  let l := eval vm_compute in (seqZ 1 31) in change (seqZ 1 31) with l.
  repeat (constructor; [reflexivity|]). constructor.
Qed.

Lemma days_in_month_le y m : days_in_month y m <= 31.
Proof. unfold days_in_month. repeat case_match; lia. Qed.

Lemma valid_date_bounds d :
  valid_date d = true ->
  1 <= year d <= 9999 /\ 1 <= month d <= 12 /\ 1 <= day d <= 31.
Proof.
  unfold valid_date. rewrite !andb_true_iff, !Z.leb_le.
  pose proof (days_in_month_le (year d) (month d)). lia.
Qed.

(** The parser of the application reads back what [str] prints. *)
Lemma strptime_isoformat d :
  valid_date d = true -> strptime_ymd (date_isoformat d) = Some d.
Proof.
  intros Hv. destruct (valid_date_bounds d Hv) as (Hy & Hm & Hd).
  unfold strptime_ymd, date_isoformat, fmt_date.
  rewrite scan_year_fmt4 by lia. cbn [scan_dash].
  rewrite scan_month_fmt2 by lia. cbn [scan_dash].
  rewrite scan_day_fmt2 by lia.
  destruct d as [y m dd]. cbn in *. by rewrite Hv.
Qed.

(** What [strptime] returns is a calendar date. *)
Lemma strptime_ymd_valid text d : strptime_ymd text = Some d -> valid_date d = true.
Proof.
  unfold strptime_ymd. repeat case_match; intros; simplify_eq; done.
Qed.

(** *** The order of timestamps *)

Lemma lex_ltb_asym a b : lex_ltb a b = true -> lex_ltb b a = false.
Proof.
  revert b. induction a as [|x a IH]; intros [|y b]; cbn; try done.
  rewrite orb_true_iff, andb_true_iff, orb_false_iff, andb_false_iff,
    Z.ltb_lt, Z.eqb_eq, Z.ltb_ge, Z.eqb_neq.
  intros [?|[? ?]]; [split; [lia|left; lia]|].
  split; [lia|right; by apply IH].
Qed.

Lemma lex_ltb_cotrans c a b :
  lex_ltb c a = true -> lex_ltb c b = true \/ lex_ltb b a = true.
Proof.
  revert a b. induction c as [|z c IH]; intros [|x a] [|y b]; cbn; auto.
  rewrite !orb_true_iff, !andb_true_iff, !Z.ltb_lt, !Z.eqb_eq.
  intros [?|[-> Hlt]].
  - destruct (Z.lt_trichotomy z y) as [?|[->|?]]; [auto|auto|right; left; lia].
  - destruct (Z.lt_trichotomy x y) as [?|[->|?]]; [auto| |auto].
    destruct (IH _ b Hlt); auto.
Qed.

Lemma lex_ltb_trichotomy a b :
  lex_ltb a b = false -> lex_ltb b a = false -> a = b.
Proof.
  revert b. induction a as [|x a IH]; intros [|y b]; cbn; try done.
  rewrite !orb_false_iff, !andb_false_iff, !Z.ltb_ge, !Z.eqb_neq.
  intros [? [?|?]] [? [?|?]]; try lia.
  assert (x = y) as -> by lia. f_equal. by apply IH.
Qed.

#[local] Instance created_le_total : Total created_le.
Proof.
  intros a b. unfold created_le.
  destruct (lex_ltb (datetime_key (WeatherQuery.created_at b))
                    (datetime_key (WeatherQuery.created_at a))) eqn:H; [|by left].
  right. by rewrite (lex_ltb_asym _ _ H).
Qed.

#[local] Instance created_le_trans : Transitive created_le.
Proof.
  intros a b c. unfold created_le. rewrite !Is_true_true, !negb_true_iff.
  intros Hab Hbc.
  destruct (lex_ltb (datetime_key (WeatherQuery.created_at c))
                    (datetime_key (WeatherQuery.created_at a))) eqn:H; [|done].
  destruct (lex_ltb_cotrans _ _ (datetime_key (WeatherQuery.created_at b)) H); congruence.
Qed.

#[local] Instance created_ge_total : Total (flip created_le).
Proof. intros a b. destruct (created_le_total a b); [by right|by left]. Qed.

#[local] Instance created_ge_trans : Transitive (flip created_le).
Proof. intros a b c Hab Hbc. exact (created_le_trans _ _ _ Hbc Hab). Qed.

(** Between rows with different timestamps, [<=] is [<]. *)
Lemma created_le_lt a b :
  created_le a b ->
  datetime_key (WeatherQuery.created_at a) <> datetime_key (WeatherQuery.created_at b) ->
  created_lt a b.
Proof.
  unfold created_le, created_lt. rewrite !Is_true_true, negb_true_iff.
  intros Hle Hne.
  destruct (lex_ltb (datetime_key (WeatherQuery.created_at a))
                    (datetime_key (WeatherQuery.created_at b))) eqn:H; [done|].
  destruct Hne. by apply lex_ltb_trichotomy.
Qed.

(** A sorted list whose keys are pairwise different is strictly sorted. *)
Lemma StronglySorted_strict {A K : Type} (R R' : relation A) (key : A -> K) (l : list A) :
  (forall x y, R x y -> key x <> key y -> R' x y) ->
  StronglySorted R l -> NoDup (key <$> l) -> StronglySorted R' l.
Proof.
  intros Hstrict. induction 1 as [|x l Hl IH Hx]; intros Hnd; [constructor|].
  rewrite fmap_cons in Hnd. apply NoDup_cons in Hnd as [Hnotin Hnd].
  constructor; [by apply IH|].
  rewrite Forall_forall in Hx |- *. intros y Hy. apply Hstrict; [by apply Hx|].
  intros Heq. apply Hnotin. rewrite Heq. by apply list_elem_of_fmap_2.
Qed.

(** C7, as the code has it: the history listing holds every row once,
    ordered by [created_at] descending; the export listing (both formats
    are written from it) holds every row once, ordered by [created_at]
    ascending; rows with equal timestamps stand next to each other in
    either listing, and when all timestamps differ the two orders are
    strict. *)
Theorem listings_ordered_by_created_at env st :
  let rows := all_rows (table st) in
  let distinct :=
    NoDup ((fun q => datetime_key (WeatherQuery.created_at q)) <$> rows) in
  (exists l, history env st = (Returned (RenderHistory l), st) /\
     l ≡ₚ rows /\
     StronglySorted (flip created_le) l /\
     (distinct -> StronglySorted (flip created_lt) l)) /\
  (exists l,
     export "json" env st = (Returned (Jsonify 200 (JArr (export_item <$> l))), st) /\
     export "csv" env st
       = (Returned (CsvAttachment
                      ["id"; "user_input"; "normalized_name"; "lat"; "lon";
                       "start_date"; "end_date"; "created_at"]
                      (export_row <$> l)), st) /\
     l ≡ₚ rows /\
     StronglySorted created_le l /\
     (distinct -> StronglySorted created_lt l)).
Proof.
  cbn zeta. split.
  - exists (order_by_created_at_desc (table st)). unfold order_by_created_at_desc.
    split; [done|]. split; [apply merge_sort_Permutation|].
    split; [apply StronglySorted_merge_sort; apply _|].
    intros Hnd.
    apply (StronglySorted_strict (flip created_le) (flip created_lt)
             (fun q => datetime_key (WeatherQuery.created_at q))).
    + intros x y Hle Hne. apply created_le_lt; [exact Hle|congruence].
    + apply StronglySorted_merge_sort; apply _.
    + by rewrite merge_sort_Permutation.
  - exists (order_by_created_at (table st)). unfold order_by_created_at.
    split; [done|]. split; [done|]. split; [apply merge_sort_Permutation|].
    split; [apply StronglySorted_merge_sort; apply _|].
    intros Hnd.
    apply (StronglySorted_strict created_le created_lt
             (fun q => datetime_key (WeatherQuery.created_at q))).
    + intros x y. apply created_le_lt.
    + apply StronglySorted_merge_sort; apply _.
    + by rewrite merge_sort_Permutation.
Qed.

(** *** The structured export *)

Lemma read_export_item q :
  dates_valid q -> read_item (export_item q) = Some (stored_fields q).
Proof.
  intros Hv. destruct q as [i u n la lo sd ed c w f].
  unfold dates_valid in Hv. cbn in Hv.
  unfold read_item, export_item, stored_fields. cbn.
  assert (Hdate : forall d, sd = d \/ ed = d ->
            read_date (date_or_null d) = Some d).
  { intros [d|] Hd; [|done]. cbn. by rewrite strptime_isoformat by (by apply Hv). }
  rewrite (Hdate sd) by auto. rewrite (Hdate ed) by auto. cbn.
  by destruct n.
Qed.

(** The dates the two flows store come out of [parse_date], so they are
    calendar dates. *)
Lemma parse_date_valid raw d :
  parse_date raw = Returned (Some d) -> valid_date d = true.
Proof.
  unfold parse_date. repeat case_match; intros; simplify_eq.
  by eapply strptime_ymd_valid.
Qed.

Lemma dates_valid_row sd ed i u n la lo c w f raw1 raw2 :
  parse_date raw1 = Returned sd -> parse_date raw2 = Returned ed ->
  dates_valid (WeatherQuery.mk i u n la lo sd ed c w f).
Proof.
  intros H1 H2 d [Hd|Hd]; cbn in Hd; subst; by eapply parse_date_valid.
Qed.

Lemma index_keeps_dates_valid rq env st :
  map_Forall (fun _ q => dates_valid q) (table st) ->
  map_Forall (fun _ q => dates_valid q) (table (snd (index rq env st))).
Proof.
  intros Hinv.
  destruct (String.eqb (method rq) "POST") eqn:Hm.
  2:{ by rewrite (index_get _ _ _ Hm). }
  apply String.eqb_eq in Hm. rewrite (index_post _ _ _ Hm). cbn zeta.
  destruct (String.eqb (submitted_location rq) ""); [done|].
  destruct (parse_date (assoc "start_date" (form rq))) as [sd|] eqn:Hs; [|done].
  destruct (parse_date (assoc "end_date" (form rq))) as [ed|] eqn:He; [|done].
  destruct (starts_after_end sd ed); [done|].
  destruct (geocode_location_frame (submitted_location rq) env st) as [reqs1 Hf1].
  destruct (geocode_location (submitted_location rq) env st) as [[[loc|]|e] st1];
    cbn [fst snd] in *; subst st1; try done.
  destruct (get_weather_and_forecast_frame (loc_lat loc) (loc_lon loc) env
              (after_sending reqs1 st)) as (reqs2 & Hf2 & _).
  destruct (get_weather_and_forecast (loc_lat loc) (loc_lon loc) env _)
    as [[[current forecast]|e] st2]; cbn [fst snd] in *; subst st2; try done.
  cbn. apply map_Forall_insert_2; [|done]. by eapply dates_valid_row.
Qed.

Lemma edit_keeps_dates_valid query_id rq env st :
  map_Forall (fun _ q => dates_valid q) (table st) ->
  map_Forall (fun _ q => dates_valid q) (table (snd (edit query_id rq env st))).
Proof.
  intros Hinv.
  destruct (table st !! query_id) as [q|] eqn:Hq.
  2:{ by rewrite (edit_missing _ _ _ _ Hq). }
  destruct (String.eqb (method rq) "POST") eqn:Hm.
  2:{ by rewrite (edit_get _ _ _ _ _ Hq Hm). }
  apply String.eqb_eq in Hm. rewrite (edit_post _ _ _ _ _ Hq Hm). cbn zeta.
  destruct (String.eqb (submitted_location rq) ""); [done|].
  destruct (parse_date (assoc "start_date" (form rq))) as [sd|] eqn:Hs; [|done].
  destruct (parse_date (assoc "end_date" (form rq))) as [ed|] eqn:He; [|done].
  destruct (starts_after_end sd ed); [done|].
  destruct (geocode_location_frame (submitted_location rq) env st) as [reqs1 Hf1].
  destruct (geocode_location (submitted_location rq) env st) as [[[loc|]|e] st1];
    cbn [fst snd] in *; subst st1; try done.
  destruct (get_weather_and_forecast_frame (loc_lat loc) (loc_lon loc) env
              (after_sending reqs1 st)) as (reqs2 & Hf2 & _).
  destruct (get_weather_and_forecast (loc_lat loc) (loc_lon loc) env _)
    as [[[current forecast]|e] st2]; cbn [fst snd] in *; subst st2; try done.
  cbn. apply map_Forall_insert_2; [|done]. by eapply dates_valid_row.
Qed.

(** C6: the structured export answers with one item per row, in the order
    of the export listing; every item has exactly the keys [id],
    [user_input], [normalized_name], [lat], [lon], [start_date],
    [end_date], [created_at] (no raw blob); a date is [null] or the
    [YYYY-MM-DD] text of the stored date; and reading the items back gives
    the id, input, normalized name, coordinates and dates of the rows. *)
Theorem export_json_round_trip env st :
  (forall q, q ∈ all_rows (table st) -> dates_valid q) ->
  exists items,
    export "json" env st = (Returned (Jsonify 200 (JArr items)), st) /\
    items = export_item <$> order_by_created_at (table st) /\
    order_by_created_at (table st) ≡ₚ all_rows (table st) /\
    length items = size (table st) /\
    Forall (fun item =>
              item_keys item = ["id"; "user_input"; "normalized_name"; "lat"; "lon";
                                "start_date"; "end_date"; "created_at"]) items /\
    (forall i q, order_by_created_at (table st) !! i = Some q ->
       exists fields, items !! i = Some (JObj fields) /\
         assoc "start_date" fields
           = Some (from_option (fun d => JStr (date_isoformat d)) JNull
                     (WeatherQuery.start_date q)) /\
         assoc "end_date" fields
           = Some (from_option (fun d => JStr (date_isoformat d)) JNull
                     (WeatherQuery.end_date q)) /\
         assoc "created_at" fields
           = Some (JStr (datetime_isoformat (WeatherQuery.created_at q)))) /\
    read_item <$> items = (fun q => Some (stored_fields q)) <$> order_by_created_at (table st).
Proof.
  intros Hvalid.
  assert (Hperm : order_by_created_at (table st) ≡ₚ all_rows (table st))
    by apply merge_sort_Permutation.
  exists (export_item <$> order_by_created_at (table st)).
  split; [done|]. split; [done|]. split; [done|]. split; [|split; [|split]].
  - rewrite length_fmap, Hperm. unfold all_rows.
    by rewrite length_fmap, length_map_to_list.
  - apply Forall_fmap, Forall_true. done.
  - intros i q Hi. exists
      [("id", JInt (WeatherQuery.id q));
       ("user_input", JStr (WeatherQuery.user_input q));
       ("normalized_name", str_or_null (WeatherQuery.normalized_name q));
       ("lat", WeatherQuery.lat q);
       ("lon", WeatherQuery.lon q);
       ("start_date", date_or_null (WeatherQuery.start_date q));
       ("end_date", date_or_null (WeatherQuery.end_date q));
       ("created_at", JStr (datetime_isoformat (WeatherQuery.created_at q)))].
    split; [by rewrite list_lookup_fmap, Hi|].
    cbn. by destruct (WeatherQuery.start_date q), (WeatherQuery.end_date q).
  - rewrite <- list_fmap_compose. apply Forall_fmap_ext_1.
    rewrite Forall_forall. intros q Hq. cbn. apply read_export_item.
    apply Hvalid. by rewrite <- Hperm.
Qed.

(** ** Further properties of the handlers *)

(** *** The clients do not look at the state *)

Lemma geocode_location_run query env :
  exists o reqs,
    (forall st, geocode_location query env st = (o, after_sending reqs st)) /\
    Forall (fun r => r = geocode_request env query /\ WEATHER_API_KEY env <> "") reqs /\
    (length reqs <= 1)%nat.
Proof.
  destruct (String.eqb (WEATHER_API_KEY env) "") eqn:Hkey.
  { exists (Raised (RuntimeError "OPENWEATHER_API_KEY is not set")), [].
    split; [|split; [constructor|cbn; lia]].
    intros st. rewrite geocode_location_spec, Hkey. by rewrite after_sending_nil. }
  apply String.eqb_neq in Hkey.
  exists (fst (geocode_location query env empty_state)), [geocode_request env query].
  split; [|split; [by repeat constructor|cbn; lia]].
  intros st. rewrite !geocode_location_spec. cbn zeta.
  apply String.eqb_neq in Hkey. rewrite Hkey.
  repeat case_match; done.
Qed.

Lemma get_weather_and_forecast_run lat lon env :
  exists o reqs,
    (forall st, get_weather_and_forecast lat lon env st = (o, after_sending reqs st)) /\
    (reqs = [] \/ reqs = [current_request env lat lon] \/
     reqs = [current_request env lat lon; forecast_request env lat lon]) /\
    (reqs <> [] -> WEATHER_API_KEY env <> "").
Proof.
  destruct (String.eqb (WEATHER_API_KEY env) "") eqn:Hkey.
  { exists (Raised (RuntimeError "OPENWEATHER_API_KEY is not set")), [].
    split; [|split; [auto|done]].
    intros st. rewrite get_weather_and_forecast_spec, Hkey. by rewrite after_sending_nil. }
  pose proof Hkey as Hne. apply String.eqb_neq in Hne.
  exists (fst (get_weather_and_forecast lat lon env empty_state)).
  destruct (upstream env (current_request env lat lon)) as [why|c1 b1] eqn:Hcur.
  { exists [current_request env lat lon]. split; [|split; [auto|done]].
    intros st. rewrite !get_weather_and_forecast_spec, Hkey, Hcur. done. }
  destruct (is_error_status c1) eqn:Hc1.
  { exists [current_request env lat lon]. split; [|split; [auto|done]].
    intros st. rewrite !get_weather_and_forecast_spec, Hkey, Hcur, Hc1. done. }
  exists [current_request env lat lon; forecast_request env lat lon].
  split; [|split; [auto|done]].
  intros st. rewrite !get_weather_and_forecast_spec, Hkey, Hcur, Hc1. cbn zeta.
  repeat case_match; done.
Qed.

(** X1: the create handler converts what its two clients raise: on a POST
    that passed validation, an exception of the geocoding client is
    answered with the redirect to the form and the flashed error "Error
    contacting geocoding service.", an exception of the weather client with
    the redirect and "Error retrieving weather data."; the state is the one
    the client left, with that one message more, so the table is what it
    was. *)
Theorem create_converts_client_errors rq env st sd ed :
  method rq = "POST" ->
  submitted_location rq <> "" ->
  parse_date (assoc "start_date" (form rq)) = Returned sd ->
  parse_date (assoc "end_date" (form rq)) = Returned ed ->
  starts_after_end sd ed = false ->
  (forall e st1,
     geocode_location (submitted_location rq) env st = (Raised e, st1) ->
     index rq env st
       = (Returned (Redirect "index" None),
          after_flash "Error contacting geocoding service." "error" st1) /\
     table st1 = table st) /\
  (forall loc st1 e st2,
     geocode_location (submitted_location rq) env st = (Returned (Some loc), st1) ->
     get_weather_and_forecast (loc_lat loc) (loc_lon loc) env st1 = (Raised e, st2) ->
     index rq env st
       = (Returned (Redirect "index" None),
          after_flash "Error retrieving weather data." "error" st2) /\
     table st2 = table st).
Proof.
  intros Hm Hloc Hs He Hord. apply String.eqb_neq in Hloc.
  rewrite (index_post _ _ _ Hm). cbn zeta. rewrite Hloc, Hs, He, Hord.
  split.
  - intros e st1 Hgeo. rewrite Hgeo. split; [done|].
    destruct (geocode_location_frame (submitted_location rq) env st) as [reqs1 Hf1].
    rewrite Hgeo in Hf1. cbn in Hf1. by subst st1.
  - intros loc st1 e st2 Hgeo Hfetch. rewrite Hgeo, Hfetch. split; [done|].
    destruct (geocode_location_frame (submitted_location rq) env st) as [reqs1 Hf1].
    rewrite Hgeo in Hf1. cbn in Hf1. subst st1.
    destruct (get_weather_and_forecast_frame (loc_lat loc) (loc_lon loc) env
                (after_sending reqs1 st)) as (reqs2 & Hf2 & _).
    rewrite Hfetch in Hf2. cbn in Hf2. by subst st2.
Qed.

(** X2: the edit handler converts nothing: on a POST that passed
    validation for a row that is there, an exception of the geocoding
    client or of the weather client leaves the handler as it was raised;
    the state is the one the client left: nothing is flashed and nothing
    is written. *)
Theorem edit_propagates_client_errors query_id rq env st q sd ed :
  table st !! query_id = Some q ->
  method rq = "POST" ->
  submitted_location rq <> "" ->
  parse_date (assoc "start_date" (form rq)) = Returned sd ->
  parse_date (assoc "end_date" (form rq)) = Returned ed ->
  starts_after_end sd ed = false ->
  (forall e st1,
     geocode_location (submitted_location rq) env st = (Raised e, st1) ->
     edit query_id rq env st = (Raised e, st1) /\ table st1 = table st) /\
  (forall loc st1 e st2,
     geocode_location (submitted_location rq) env st = (Returned (Some loc), st1) ->
     get_weather_and_forecast (loc_lat loc) (loc_lon loc) env st1 = (Raised e, st2) ->
     edit query_id rq env st = (Raised e, st2) /\ table st2 = table st).
Proof.
  intros Hq Hm Hloc Hs He Hord. apply String.eqb_neq in Hloc.
  rewrite (edit_post _ _ _ _ _ Hq Hm). cbn zeta. rewrite Hloc, Hs, He, Hord.
  split.
  - intros e st1 Hgeo. rewrite Hgeo. split; [done|].
    destruct (geocode_location_frame (submitted_location rq) env st) as [reqs1 Hf1].
    rewrite Hgeo in Hf1. cbn in Hf1. by subst st1.
  - intros loc st1 e st2 Hgeo Hfetch. rewrite Hgeo, Hfetch. split; [done|].
    destruct (geocode_location_frame (submitted_location rq) env st) as [reqs1 Hf1].
    rewrite Hgeo in Hf1. cbn in Hf1. subst st1.
    destruct (get_weather_and_forecast_frame (loc_lat loc) (loc_lon loc) env
                (after_sending reqs1 st)) as (reqs2 & Hf2 & _).
    rewrite Hfetch in Hf2. cbn in Hf2. by subst st2.
Qed.


(** X4: the create handler never changes or removes a row that is there:
    whatever the request and its outcome, every key that held a row holds
    the same row afterwards. *)
Theorem create_keeps_existing_rows rq env st k q :
  table st !! k = Some q -> table (snd (index rq env st)) !! k = Some q.
Proof.
  intros Hk.
  destruct (String.eqb (method rq) "POST") eqn:Hm.
  2:{ by rewrite (index_get _ _ _ Hm). }
  apply String.eqb_eq in Hm. rewrite (index_post _ _ _ Hm). cbn zeta.
  destruct (String.eqb (submitted_location rq) ""); [done|].
  destruct (parse_date (assoc "start_date" (form rq))) as [sd|]; [|done].
  destruct (parse_date (assoc "end_date" (form rq))) as [ed|]; [|done].
  destruct (starts_after_end sd ed); [done|].
  destruct (geocode_location_frame (submitted_location rq) env st) as [reqs1 Hf1].
  destruct (geocode_location (submitted_location rq) env st) as [[[loc|]|e] st1];
    cbn [fst snd] in *; subst st1; try done.
  destruct (get_weather_and_forecast_frame (loc_lat loc) (loc_lon loc) env
              (after_sending reqs1 st)) as (reqs2 & Hf2 & _).
  destruct (get_weather_and_forecast (loc_lat loc) (loc_lon loc) env _)
    as [[[current forecast]|e] st2]; cbn [fst snd] in *; subst st2; try done.
  cbn. rewrite lookup_insert_ne; [done|].
  intros Heq. pose proof (fresh_id_fresh (table st)) as Hfresh.
  rewrite Heq in Hfresh. congruence.
Qed.

(** X5: whatever its outcome, the edit handler leaves every row but the
    addressed one as it was, adds and removes none, and the addressed row
    keeps its [id] and its [created_at]. *)
Theorem edit_touches_only_its_row query_id rq env st q :
  table_keyed (table st) ->
  table st !! query_id = Some q ->
  (forall k, k <> query_id ->
     table (snd (edit query_id rq env st)) !! k = table st !! k) /\
  (exists q', table (snd (edit query_id rq env st)) !! query_id = Some q' /\
     WeatherQuery.id q' = WeatherQuery.id q /\
     WeatherQuery.created_at q' = WeatherQuery.created_at q) /\
  size (table (snd (edit query_id rq env st))) = size (table st).
Proof.
  intros Hkeyed Hq.
  assert (Hid : WeatherQuery.id q = query_id) by exact (Hkeyed _ _ Hq).
  assert (Hsame : forall st' : state,
            table st' = table st ->
            (forall k, k <> query_id -> table st' !! k = table st !! k) /\
            (exists q', table st' !! query_id = Some q' /\
               WeatherQuery.id q' = WeatherQuery.id q /\
               WeatherQuery.created_at q' = WeatherQuery.created_at q) /\
            size (table st') = size (table st))
    by (intros st' ->; eauto 10).
  destruct (String.eqb (method rq) "POST") eqn:Hm.
  2:{ rewrite (edit_get _ _ _ _ _ Hq Hm). by apply Hsame. }
  apply String.eqb_eq in Hm. rewrite (edit_post _ _ _ _ _ Hq Hm). cbn zeta.
  destruct (String.eqb (submitted_location rq) ""); [by apply Hsame|].
  destruct (parse_date (assoc "start_date" (form rq))) as [sd|]; [|by apply Hsame].
  destruct (parse_date (assoc "end_date" (form rq))) as [ed|]; [|by apply Hsame].
  destruct (starts_after_end sd ed); [by apply Hsame|].
  destruct (geocode_location_frame (submitted_location rq) env st) as [reqs1 Hf1].
  destruct (geocode_location (submitted_location rq) env st) as [[[loc|]|e] st1];
    cbn [fst snd] in *; subst st1; [|by apply Hsame|by apply Hsame].
  destruct (get_weather_and_forecast_frame (loc_lat loc) (loc_lon loc) env
              (after_sending reqs1 st)) as (reqs2 & Hf2 & _).
  destruct (get_weather_and_forecast (loc_lat loc) (loc_lon loc) env _)
    as [[[current forecast]|e] st2]; cbn [fst snd] in *; subst st2;
    [|by apply Hsame].
  cbn. rewrite Hid. split; [|split].
  - intros k Hk. by rewrite lookup_insert_ne.
  - eexists. rewrite lookup_insert_eq. split; [reflexivity|]. cbn. done.
  - rewrite map_size_insert_Some; [done|]. by rewrite Hq.
Qed.

(** X6: the three writing handlers keep the primary key: when every row
    sits under its own [id] before, so it does after a create, an edit and
    a delete. *)
Theorem primary_key_kept query_id rq env st :
  table_keyed (table st) ->
  table_keyed (table (snd (index rq env st))) /\
  table_keyed (table (snd (edit query_id rq env st))) /\
  table_keyed (table (snd (delete query_id env st))).
Proof.
  intros Hkeyed. split; [|split].
  - destruct (String.eqb (method rq) "POST") eqn:Hm.
    2:{ by rewrite (index_get _ _ _ Hm). }
    apply String.eqb_eq in Hm. rewrite (index_post _ _ _ Hm). cbn zeta.
    destruct (String.eqb (submitted_location rq) ""); [done|].
    destruct (parse_date (assoc "start_date" (form rq))) as [sd|]; [|done].
    destruct (parse_date (assoc "end_date" (form rq))) as [ed|]; [|done].
    destruct (starts_after_end sd ed); [done|].
    destruct (geocode_location_frame (submitted_location rq) env st) as [reqs1 Hf1].
    destruct (geocode_location (submitted_location rq) env st) as [[[loc|]|e] st1];
      cbn [fst snd] in *; subst st1; try done.
    destruct (get_weather_and_forecast_frame (loc_lat loc) (loc_lon loc) env
                (after_sending reqs1 st)) as (reqs2 & Hf2 & _).
    destruct (get_weather_and_forecast (loc_lat loc) (loc_lon loc) env _)
      as [[[current forecast]|e] st2]; cbn [fst snd] in *; subst st2; try done.
    cbn. by apply map_Forall_insert_2.
  - destruct (table st !! query_id) as [q|] eqn:Hq.
    2:{ by rewrite (edit_missing _ _ _ _ Hq). }
    destruct (String.eqb (method rq) "POST") eqn:Hm.
    2:{ by rewrite (edit_get _ _ _ _ _ Hq Hm). }
    apply String.eqb_eq in Hm. rewrite (edit_post _ _ _ _ _ Hq Hm). cbn zeta.
    destruct (String.eqb (submitted_location rq) ""); [done|].
    destruct (parse_date (assoc "start_date" (form rq))) as [sd|]; [|done].
    destruct (parse_date (assoc "end_date" (form rq))) as [ed|]; [|done].
    destruct (starts_after_end sd ed); [done|].
    destruct (geocode_location_frame (submitted_location rq) env st) as [reqs1 Hf1].
    destruct (geocode_location (submitted_location rq) env st) as [[[loc|]|e] st1];
      cbn [fst snd] in *; subst st1; try done.
    destruct (get_weather_and_forecast_frame (loc_lat loc) (loc_lon loc) env
                (after_sending reqs1 st)) as (reqs2 & Hf2 & _).
    destruct (get_weather_and_forecast (loc_lat loc) (loc_lon loc) env _)
      as [[[current forecast]|e] st2]; cbn [fst snd] in *; subst st2; try done.
    cbn. by apply map_Forall_insert_2.
  - unfold delete, get_or_404. run.
    destruct (table st !! query_id) as [q|]; [|done].
    cbn. by apply map_Forall_delete.
Qed.

(** X7: the reading handlers change nothing: the history, the detail view
    and the export, for every format, and the GET of the create and of the
    edit form leave the table, the requests sent and the flashed messages
    as they were, also when they raise. *)
Theorem reading_handlers_change_nothing query_id fmt rq env st :
  snd (history env st) = st /\
  snd (detail query_id env st) = st /\
  snd (export fmt env st) = st /\
  (String.eqb (method rq) "POST" = false ->
   snd (index rq env st) = st /\ snd (edit query_id rq env st) = st).
Proof.
  split; [done|]. split; [|split].
  - unfold detail, get_or_404, loads_if_present. run.
    destruct (table st !! query_id) as [q|]; [|done]. run.
    repeat case_match; simplify_eq; cbn in *; try done;
      repeat case_match; simplify_eq; done.
  - unfold export. run. repeat case_match; done.
  - intros Hm. split; [by rewrite (index_get _ _ _ Hm)|].
    destruct (table st !! query_id) as [q|] eqn:Hq.
    + by rewrite (edit_get _ _ _ _ _ Hq Hm).
    + by rewrite (edit_missing _ _ _ _ Hq).
Qed.

(** X8: [parse_date] reads back what [str] prints for every calendar date;
    what it returns is always a calendar date, and printing and parsing
    that date again gives it back; the only exception it raises is
    [ValueError]; a missing and an empty field are no date. *)
Theorem parse_date_reads_calendar_dates :
  (forall d, valid_date d = true ->
     parse_date (Some (date_isoformat d)) = Returned (Some d)) /\
  (forall raw d, parse_date raw = Returned (Some d) ->
     valid_date d = true /\ parse_date (Some (date_isoformat d)) = Returned (Some d)) /\
  (forall raw e, parse_date raw = Raised e -> e = ValueError) /\
  parse_date None = Returned None /\
  parse_date (Some "") = Returned None.
Proof.
  assert (Hround : forall d, valid_date d = true ->
            parse_date (Some (date_isoformat d)) = Returned (Some d))
    by (intros d Hd; apply parse_date_parsed; by apply strptime_isoformat).
  split; [exact Hround|]. split; [|split; [|done]].
  - intros raw d Hraw. pose proof (parse_date_valid _ _ Hraw). auto.
  - intros raw e. unfold parse_date. repeat case_match; intros; by simplify_eq.
Qed.

(** *** Blank locations *)

Lemma lstrip_blank s : all_blank s = true -> lstrip s = "".
Proof.
  induction s as [|c s IH]; cbn; [done|].
  destruct (isspace c); [exact IH|done].
Qed.

Lemma rstrip_head c rest : isspace c = false -> rstrip (String c rest) <> "".
Proof. intros Hc. cbn. destruct (rstrip rest); [by rewrite Hc|done]. Qed.

Lemma strip_empty s : strip s = "" <-> all_blank s = true.
Proof.
  unfold strip. split.
  - induction s as [|c s IH]; cbn; [done|].
    destruct (isspace c) eqn:Hc; [exact IH|].
    intros H. by apply rstrip_head in H.
  - intros H. by rewrite lstrip_blank.
Qed.

(** X9: a POST whose location field is missing, empty or made of blanks
    only is rejected before anything else happens, by the create and by
    the edit handler: the response is the redirect to the form, one error
    is flashed, no request goes out and nothing is written. *)
Theorem blank_location_rejected query_id rq env st :
  method rq = "POST" ->
  all_blank (default "" (assoc "location" (form rq))) = true ->
  index rq env st
    = (Returned (Redirect "index" None),
       after_flash "Please enter a location." "error" st) /\
  forall q, table st !! query_id = Some q ->
    edit query_id rq env st
      = (Returned (Redirect "edit" (Some (WeatherQuery.id q))),
         after_flash "Location cannot be empty." "error" st).
Proof.
  intros Hm Hblank. apply strip_empty in Hblank. fold (submitted_location rq) in Hblank.
  split; [|intros q Hq].
  - rewrite (index_post _ _ _ Hm). cbn zeta. by rewrite Hblank.
  - rewrite (edit_post _ _ _ _ _ Hq Hm). cbn zeta. by rewrite Hblank.
Qed.


(** X11: when no two rows share a timestamp, the history listing is the
    export listing read backwards. *)
Theorem history_mirrors_export env st :
  NoDup ((fun q => datetime_key (WeatherQuery.created_at q)) <$> all_rows (table st)) ->
  exists l,
    export "json" env st = (Returned (Jsonify 200 (JArr (export_item <$> l))), st) /\
    history env st = (Returned (RenderHistory (reverse l)), st).
Proof.
  intros Hnd. exists (order_by_created_at (table st)). split; [done|].
  unfold history. run. do 3 f_equal.
  assert (Hasc : StronglySorted created_lt (order_by_created_at (table st))).
  { apply (StronglySorted_strict created_le created_lt
             (fun q => datetime_key (WeatherQuery.created_at q))).
    - intros x y. apply created_le_lt.
    - apply StronglySorted_merge_sort; apply _.
    - unfold order_by_created_at. by rewrite merge_sort_Permutation. }
  assert (Hdesc : StronglySorted (flip created_lt) (order_by_created_at_desc (table st))).
  { apply (StronglySorted_strict (flip created_le) (flip created_lt)
             (fun q => datetime_key (WeatherQuery.created_at q))).
    - intros x y Hle Hne. apply created_le_lt; [exact Hle|congruence].
    - apply StronglySorted_merge_sort; apply _.
    - unfold order_by_created_at_desc. by rewrite merge_sort_Permutation. }
  apply (StronglySorted_unique_strong (flip created_lt)); [|exact Hdesc| |].
  - intros x y _ _ Hxy Hyx. unfold flip, created_lt in *.
    apply Is_true_true in Hxy, Hyx. apply lex_ltb_asym in Hxy. congruence.
  - apply Sorted_StronglySorted.
    + intros x y z Hxy Hyz. unfold flip, created_lt in *.
      apply Is_true_true in Hxy, Hyz. apply Is_true_true.
      destruct (lex_ltb_cotrans _ _ (datetime_key (WeatherQuery.created_at x)) Hyz)
        as [H|H]; [done|].
      apply lex_ltb_asym in Hxy. congruence.
    + apply Sorted_reverse. by apply StronglySorted_Sorted.
  - unfold order_by_created_at_desc, order_by_created_at.
    by rewrite reverse_Permutation, !merge_sort_Permutation.
Qed.

(** X12: a row the create handler has just added can be read back: the
    detail view of its id shows that very row, with the two bodies the
    create rendered, provided [json.loads] reads what [json.dumps] wrote
    for them. *)
Theorem created_row_is_shown rq env env' st current forecast row st' :
  index rq env st
    = (Returned (RenderIndex (Some current) (Some forecast) (Some row)), st') ->
  json_dumps current <> "" -> json_loads (json_dumps current) = Some current ->
  json_dumps forecast <> "" -> json_loads (json_dumps forecast) = Some forecast ->
  detail (WeatherQuery.id row) env' st'
    = (Returned (RenderDetail row (Some current) (Some forecast)), st').
Proof.
  intros Hindex Hc1 Hc2 Hf1 Hf2.
  destruct (String.eqb (method rq) "POST") eqn:Hm.
  2:{ by rewrite (index_get _ _ _ Hm) in Hindex. }
  apply String.eqb_eq in Hm. rewrite (index_post _ _ _ Hm) in Hindex.
  cbn zeta in Hindex.
  destruct (String.eqb (submitted_location rq) ""); [done|].
  destruct (parse_date (assoc "start_date" (form rq))) as [sd|]; [|done].
  destruct (parse_date (assoc "end_date" (form rq))) as [ed|]; [|done].
  destruct (starts_after_end sd ed); [done|].
  destruct (geocode_location (submitted_location rq) env st) as [[[loc|]|e] st1];
    try done.
  destruct (get_weather_and_forecast (loc_lat loc) (loc_lon loc) env st1)
    as [[[current' forecast']|e] st2]; try done.
  injection Hindex as <- <- <- <-.
  unfold detail, get_or_404, loads_if_present. run. cbn.
  rewrite lookup_insert_eq. run. cbn.
  apply String.eqb_neq in Hc1, Hf1. by rewrite Hc1, Hc2, Hf1, Hf2.
Qed.

(** X13: a deleted row is gone: after a delete that succeeded, the detail
    view of that id and a second delete both raise the 404, and no row
    with that id stands in the history listing. *)
Theorem deleted_row_is_gone query_id env env' st r st' :
  table_keyed (table st) ->
  delete query_id env st = (Returned r, st') ->
  detail query_id env' st' = (Raised NotFound404, st') /\
  delete query_id env' st' = (Raised NotFound404, st') /\
  exists l, history env' st' = (Returned (RenderHistory l), st') /\
    Forall (fun q => WeatherQuery.id q <> query_id) l.
Proof.
  intros Hkeyed. unfold delete, detail, get_or_404 at 1. run.
  destruct (table st !! query_id) as [q|] eqn:Hq; [|done].
  intros [= _ <-]. cbn.
  assert (WeatherQuery.id q = query_id) as -> by exact (Hkeyed _ _ Hq).
  unfold get_or_404. run. cbn. rewrite lookup_delete_eq.
  split; [done|]. split; [done|].
  eexists. split; [reflexivity|].
  unfold order_by_created_at_desc.
  rewrite merge_sort_Permutation. unfold all_rows.
  rewrite Forall_fmap, Forall_forall. intros [k q'] Hin. cbn.
  apply elem_of_map_to_list in Hin. cbn in Hin.
  destruct (decide (k = query_id)) as [->|Hne]; [by rewrite lookup_delete_eq in Hin|].
  rewrite lookup_delete_ne in Hin by done.
  by rewrite (Hkeyed _ _ Hin).
Qed.

(** *** What goes out *)

Lemma geocode_request_carries_key env query :
  WEATHER_API_KEY env <> "" -> carries_key env (geocode_request env query).
Proof. intros H. by repeat split. Qed.

Lemma weather_requests_carry_key env lat lon :
  WEATHER_API_KEY env <> "" ->
  carries_key env (current_request env lat lon) /\
  carries_key env (forecast_request env lat lon).
Proof. intros H. by repeat split. Qed.

Lemma geocode_location_sent query env st :
  exists reqs, snd (geocode_location query env st) = after_sending reqs st /\
    Forall (carries_key env) reqs /\ (length reqs <= 1)%nat.
Proof.
  destruct (geocode_location_run query env) as (o & reqs & Hrun & Hall & Hlen).
  exists reqs. rewrite Hrun. split; [done|]. split; [|done].
  eapply Forall_impl; [exact Hall|]. intros r [-> Hkey].
  by apply geocode_request_carries_key.
Qed.

Lemma get_weather_and_forecast_sent lat lon env st :
  exists reqs, snd (get_weather_and_forecast lat lon env st) = after_sending reqs st /\
    Forall (carries_key env) reqs /\ (length reqs <= 2)%nat.
Proof.
  destruct (get_weather_and_forecast_run lat lon env) as (o & reqs & Hrun & Hreqs & Hkey).
  exists reqs. rewrite Hrun. split; [done|].
  destruct Hreqs as [->|[->| ->]]; [split; [constructor|cbn; lia]| |].
  - destruct (weather_requests_carry_key env lat lon) as [Hc _]; [by apply Hkey|].
    split; [|cbn; lia]. apply Forall_cons_2; [done|apply Forall_nil_2].
  - destruct (weather_requests_carry_key env lat lon) as [Hc Hf]; [by apply Hkey|].
    split; [|cbn; lia].
    apply Forall_cons_2; [done|]. apply Forall_cons_2; [done|apply Forall_nil_2].
Qed.

(** X14: every request a handler sends carries the configured key, which
    is not empty, and the five-second timeout; the create and the edit
    handler send at most three requests, the coordinate lookup at most
    two. *)
Theorem outbound_requests_carry_key query_id rq env st :
  (exists reqs, sent (snd (index rq env st)) = sent st ++ reqs /\
     Forall (carries_key env) reqs /\ (length reqs <= 3)%nat) /\
  (exists reqs, sent (snd (edit query_id rq env st)) = sent st ++ reqs /\
     Forall (carries_key env) reqs /\ (length reqs <= 3)%nat) /\
  (exists reqs, sent (snd (by_coords rq env st)) = sent st ++ reqs /\
     Forall (carries_key env) reqs /\ (length reqs <= 2)%nat).
Proof.
  assert (Hnone : forall (n : nat) (st' : state), sent st' = sent st ->
            exists reqs, sent st' = sent st ++ reqs /\
              Forall (carries_key env) reqs /\ (length reqs <= n)%nat).
  { intros n st' ->. exists []. rewrite app_nil_r.
    split; [done|]. split; [constructor|cbn; lia]. }
  assert (Hboth : forall (reqs1 reqs2 : list http_request) (st' : state),
            Forall (carries_key env) reqs1 -> (length reqs1 <= 1)%nat ->
            Forall (carries_key env) reqs2 -> (length reqs2 <= 2)%nat ->
            sent st' = sent (after_sending reqs2 (after_sending reqs1 st)) ->
            exists reqs, sent st' = sent st ++ reqs /\
              Forall (carries_key env) reqs /\ (length reqs <= 3)%nat).
  { intros reqs1 reqs2 st' H1 Hl1 H2 Hl2 ->. exists (reqs1 ++ reqs2).
    cbn. rewrite app_assoc. split; [done|].
    split; [by apply Forall_app|]. rewrite length_app. lia. }
  assert (Hone : forall (reqs1 : list http_request) (st' : state),
            Forall (carries_key env) reqs1 -> (length reqs1 <= 1)%nat ->
            sent st' = sent (after_sending reqs1 st) ->
            exists reqs, sent st' = sent st ++ reqs /\
              Forall (carries_key env) reqs /\ (length reqs <= 3)%nat).
  { intros reqs1 st' H1 Hl1 ->. exists reqs1. split; [done|]. split; [done|lia]. }
  split; [|split].
  - destruct (String.eqb (method rq) "POST") eqn:Hm.
    2:{ rewrite (index_get _ _ _ Hm). by apply Hnone. }
    apply String.eqb_eq in Hm. rewrite (index_post _ _ _ Hm). cbn zeta.
    destruct (String.eqb (submitted_location rq) ""); [by apply Hnone|].
    destruct (parse_date (assoc "start_date" (form rq))) as [sd|]; [|by apply Hnone].
    destruct (parse_date (assoc "end_date" (form rq))) as [ed|]; [|by apply Hnone].
    destruct (starts_after_end sd ed); [by apply Hnone|].
    destruct (geocode_location_sent (submitted_location rq) env st)
      as (reqs1 & Hf1 & Hall1 & Hlen1).
    destruct (geocode_location (submitted_location rq) env st) as [[[loc|]|e] st1];
      cbn [fst snd] in *; subst st1; [|by eapply Hone|by eapply Hone].
    destruct (get_weather_and_forecast_sent (loc_lat loc) (loc_lon loc) env
                (after_sending reqs1 st)) as (reqs2 & Hf2 & Hall2 & Hlen2).
    destruct (get_weather_and_forecast (loc_lat loc) (loc_lon loc) env _)
      as [[[current forecast]|e] st2]; cbn [fst snd] in *; subst st2;
      by eapply (Hboth reqs1 reqs2).
  - destruct (table st !! query_id) as [q|] eqn:Hq.
    2:{ rewrite (edit_missing _ _ _ _ Hq). by apply Hnone. }
    destruct (String.eqb (method rq) "POST") eqn:Hm.
    2:{ rewrite (edit_get _ _ _ _ _ Hq Hm). by apply Hnone. }
    apply String.eqb_eq in Hm. rewrite (edit_post _ _ _ _ _ Hq Hm). cbn zeta.
    destruct (String.eqb (submitted_location rq) ""); [by apply Hnone|].
    destruct (parse_date (assoc "start_date" (form rq))) as [sd|]; [|by apply Hnone].
    destruct (parse_date (assoc "end_date" (form rq))) as [ed|]; [|by apply Hnone].
    destruct (starts_after_end sd ed); [by apply Hnone|].
    destruct (geocode_location_sent (submitted_location rq) env st)
      as (reqs1 & Hf1 & Hall1 & Hlen1).
    destruct (geocode_location (submitted_location rq) env st) as [[[loc|]|e] st1];
      cbn [fst snd] in *; subst st1; [|by eapply Hone|by eapply Hone].
    destruct (get_weather_and_forecast_sent (loc_lat loc) (loc_lon loc) env
                (after_sending reqs1 st)) as (reqs2 & Hf2 & Hall2 & Hlen2).
    destruct (get_weather_and_forecast (loc_lat loc) (loc_lon loc) env _)
      as [[[current forecast]|e] st2]; cbn [fst snd] in *; subst st2;
      by eapply (Hboth reqs1 reqs2).
  - destruct (get_json rq) as [| | | | |items|fields] eqn:Hbody;
      try (unfold by_coords, dict_get; rewrite Hbody; run; by apply Hnone).
    rewrite (by_coords_spec _ _ _ _ Hbody). cbn zeta.
    destruct (is_None _ || is_None _); [by apply Hnone|].
    destruct (get_weather_and_forecast_sent (default JNull (assoc "lat" fields))
                (default JNull (assoc "lon" fields)) env st)
      as (reqs2 & Hf2 & Hall2 & Hlen2).
    destruct (get_weather_and_forecast _ _ env st) as [[[current forecast]|e] st2];
      cbn [fst snd] in *; subst st2; by exists reqs2.
Qed.

(** X15: a JSON body that is not an object (an array, a number, a string,
    [null]) makes the coordinate lookup raise [AttributeError] at its first
    [data.get], before any fetch; nothing is caught and the state is what
    it was. *)
Theorem by_coords_rejects_non_object rq env st :
  (forall fields, get_json rq <> JObj fields) ->
  by_coords rq env st = (Raised AttributeError, st).
Proof.
  intros Hbody. unfold by_coords, dict_get.
  destruct (get_json rq) as [| | | | | |fields]; try done.
  by destruct (Hbody fields).
Qed.

(** X16: with a key configured, the geocoding client sends its one request
    and then: raises the transport error when no response comes; raises
    [HTTPError] with the status for a 4xx or 5xx answer; raises
    [JSONDecodeError] for a body that is not JSON; returns [None], and no
    error, for an empty list (or any other false body); and raises
    [KeyError] when the first match lacks [lat] or [lon]. *)
Theorem geocode_upstream_answers query env st :
  WEATHER_API_KEY env <> "" ->
  (forall why,
     upstream env (geocode_request env query) = NoResponse why ->
     geocode_location query env st
       = (Raised (RequestException why), after_sending [geocode_request env query] st)) /\
  (forall code body,
     upstream env (geocode_request env query) = Response code body ->
     is_error_status code = true ->
     geocode_location query env st
       = (Raised (HTTPError code), after_sending [geocode_request env query] st)) /\
  (forall code,
     upstream env (geocode_request env query) = Response code None ->
     is_error_status code = false ->
     geocode_location query env st
       = (Raised JSONDecodeError, after_sending [geocode_request env query] st)) /\
  (forall code data,
     upstream env (geocode_request env query) = Response code (Some data) ->
     is_error_status code = false -> truthy data = false ->
     geocode_location query env st
       = (Returned None, after_sending [geocode_request env query] st)) /\
  (forall code fields rest,
     upstream env (geocode_request env query)
       = Response code (Some (JArr (JObj fields :: rest))) ->
     is_error_status code = false ->
     assoc "lat" fields = None \/ assoc "lon" fields = None ->
     exists key,
       geocode_location query env st
         = (Raised (KeyError (JStr key)), after_sending [geocode_request env query] st)).
Proof.
  intros Hkey. apply String.eqb_neq in Hkey.
  repeat split.
  - intros why Hup. by rewrite geocode_location_spec, Hkey, Hup.
  - intros code body Hup Hcode. by rewrite geocode_location_spec, Hkey, Hup, Hcode.
  - intros code Hup Hcode. by rewrite geocode_location_spec, Hkey, Hup, Hcode.
  - intros code data Hup Hcode Hdata.
    rewrite geocode_location_spec, Hkey, Hup, Hcode. cbn zeta. by rewrite Hdata.
  - intros code fields rest Hup Hcode Hmiss.
    rewrite geocode_location_spec, Hkey, Hup, Hcode. cbn.
    destruct (assoc "lat" fields); [|eauto].
    destruct (assoc "lon" fields); [|eauto]. by destruct Hmiss.
Qed.

(** X17: an edit that succeeded can be repeated: against the same upstream
    the same submission succeeds again and leaves the table exactly as the
    first edit left it. *)
Theorem edit_twice_same_table query_id rq env st target st1 :
  table_keyed (table st) ->
  edit query_id rq env st = (Returned (Redirect "detail" target), st1) ->
  exists st2,
    edit query_id rq env st1 = (Returned (Redirect "detail" target), st2) /\
    table st2 = table st1.
Proof.
  intros Hkeyed Hedit.
  destruct (table st !! query_id) as [q|] eqn:Hq.
  2:{ by rewrite (edit_missing _ _ _ _ Hq) in Hedit. }
  destruct (String.eqb (method rq) "POST") eqn:Hm.
  2:{ by rewrite (edit_get _ _ _ _ _ Hq Hm) in Hedit. }
  apply String.eqb_eq in Hm. rewrite (edit_post _ _ _ _ _ Hq Hm) in Hedit.
  cbn zeta in Hedit.
  destruct (geocode_location_run (submitted_location rq) env) as (o1 & reqs1 & Hrun1 & _).
  rewrite Hrun1 in Hedit.
  destruct (String.eqb (submitted_location rq) "") eqn:Hloc; [done|].
  destruct (parse_date (assoc "start_date" (form rq))) as [sd|] eqn:Hs; [|done].
  destruct (parse_date (assoc "end_date" (form rq))) as [ed|] eqn:He; [|done].
  destruct (starts_after_end sd ed) eqn:Hord; [done|].
  destruct o1 as [[loc|]|e]; try done.
  destruct (get_weather_and_forecast_run (loc_lat loc) (loc_lon loc) env)
    as (o2 & reqs2 & Hrun2 & _).
  rewrite Hrun2 in Hedit. destruct o2 as [[current forecast]|e]; [|done].
  injection Hedit as <- <-.
  assert (Hid : WeatherQuery.id q = query_id) by exact (Hkeyed _ _ Hq).
  eexists. split.
  - erewrite edit_post; [|cbn; rewrite Hid; apply lookup_insert_eq|exact Hm].
    cbn zeta. rewrite Hloc, Hs, He, Hord, Hrun1, Hrun2. reflexivity.
  - cbn. unfold edited_row. cbn. by rewrite insert_insert_eq.
Qed.


(** X19: because the key falls back to a built-in default, the
    configuration error of the two clients can only come about when the
    environment variable is set, and set to the empty string. *)
Theorem configuration_error_needs_empty_variable query lat lon env st :
  ((exists msg, fst (geocode_location query env st) = Raised (RuntimeError msg))
   <-> environ env !! "OPENWEATHER_API_KEY" = Some "") /\
  ((exists msg, fst (get_weather_and_forecast lat lon env st) = Raised (RuntimeError msg))
   <-> environ env !! "OPENWEATHER_API_KEY" = Some "").
Proof.
  assert (Hkey : String.eqb (WEATHER_API_KEY env) "" = true
                 <-> environ env !! "OPENWEATHER_API_KEY" = Some "").
  { unfold WEATHER_API_KEY. rewrite String.eqb_eq.
    destruct (environ env !! "OPENWEATHER_API_KEY") as [v|]; cbn; [|done].
    split; congruence. }
  rewrite <- Hkey. split.
  - rewrite geocode_location_spec. cbn zeta.
    destruct (String.eqb (WEATHER_API_KEY env) ""); [split; cbn; eauto|].
    split; [|done]. intros [msg H]. repeat case_match; cbn in H; simplify_eq.
  - rewrite get_weather_and_forecast_spec. cbn zeta.
    destruct (String.eqb (WEATHER_API_KEY env) ""); [split; cbn; eauto|].
    split; [|done]. intros [msg H]. repeat case_match; cbn in H; simplify_eq.
Qed.

(** *** The input column *)

Lemma lstrip_head s c rest : lstrip s = String c rest -> isspace c = false.
Proof.
  induction s as [|c' s IH]; cbn; [done|].
  destruct (isspace c') eqn:Hc; [exact IH|]. by intros [= <- _].
Qed.

Lemma rstrip_idempotent s : rstrip (rstrip s) = rstrip s.
Proof.
  induction s as [|c s IH]; cbn; [done|].
  destruct (rstrip s) as [|k kept] eqn:Hs.
  - destruct (isspace c) eqn:Hc; cbn; [done|]. by rewrite Hc.
  - cbn -[rstrip]. cbn [rstrip] in IH |- *. by rewrite IH.
Qed.

Lemma rstrip_keeps_head c rest :
  isspace c = false -> exists kept, rstrip (String c rest) = String c kept.
Proof. intros Hc. cbn. destruct (rstrip rest); [rewrite Hc|]; eauto. Qed.

Lemma strip_idempotent s : strip (strip s) = strip s.
Proof.
  unfold strip. destruct (lstrip s) as [|c rest] eqn:Hs; [done|].
  destruct (rstrip_keeps_head c rest (lstrip_head _ _ _ Hs)) as [kept Hk].
  rewrite Hk. cbn [lstrip]. rewrite (lstrip_head _ _ _ Hs).
  rewrite <- Hk. apply rstrip_idempotent.
Qed.

(** X20: the create and the edit handler keep the input column clean:
    when every row has a [user_input] that is not empty and carries no
    blank at either end, so has every row after the call. *)
Theorem user_input_kept_trimmed query_id rq env st :
  map_Forall (fun _ q => input_trimmed q) (table st) ->
  map_Forall (fun _ q => input_trimmed q) (table (snd (index rq env st))) /\
  map_Forall (fun _ q => input_trimmed q) (table (snd (edit query_id rq env st))).
Proof.
  intros Hinv.
  assert (Hnew : forall i n la lo sd ed c w f,
            String.eqb (submitted_location rq) "" = false ->
            input_trimmed (WeatherQuery.mk i (submitted_location rq) n la lo sd ed c w f)).
  { intros i n la lo sd ed c w f Hloc. apply String.eqb_neq in Hloc.
    split; [exact Hloc|]. cbn. apply strip_idempotent. }
  split.
  - destruct (String.eqb (method rq) "POST") eqn:Hm.
    2:{ by rewrite (index_get _ _ _ Hm). }
    apply String.eqb_eq in Hm. rewrite (index_post _ _ _ Hm). cbn zeta.
    destruct (String.eqb (submitted_location rq) "") eqn:Hloc; [done|].
    destruct (parse_date (assoc "start_date" (form rq))) as [sd|]; [|done].
    destruct (parse_date (assoc "end_date" (form rq))) as [ed|]; [|done].
    destruct (starts_after_end sd ed); [done|].
    destruct (geocode_location_frame (submitted_location rq) env st) as [reqs1 Hf1].
    destruct (geocode_location (submitted_location rq) env st) as [[[loc|]|e] st1];
      cbn [fst snd] in *; subst st1; try done.
    destruct (get_weather_and_forecast_frame (loc_lat loc) (loc_lon loc) env
                (after_sending reqs1 st)) as (reqs2 & Hf2 & _).
    destruct (get_weather_and_forecast (loc_lat loc) (loc_lon loc) env _)
      as [[[current forecast]|e] st2]; cbn [fst snd] in *; subst st2; try done.
    cbn. apply map_Forall_insert_2; [|done]. by apply Hnew.
  - destruct (table st !! query_id) as [q|] eqn:Hq.
    2:{ by rewrite (edit_missing _ _ _ _ Hq). }
    destruct (String.eqb (method rq) "POST") eqn:Hm.
    2:{ by rewrite (edit_get _ _ _ _ _ Hq Hm). }
    apply String.eqb_eq in Hm. rewrite (edit_post _ _ _ _ _ Hq Hm). cbn zeta.
    destruct (String.eqb (submitted_location rq) "") eqn:Hloc; [done|].
    destruct (parse_date (assoc "start_date" (form rq))) as [sd|]; [|done].
    destruct (parse_date (assoc "end_date" (form rq))) as [ed|]; [|done].
    destruct (starts_after_end sd ed); [done|].
    destruct (geocode_location_frame (submitted_location rq) env st) as [reqs1 Hf1].
    destruct (geocode_location (submitted_location rq) env st) as [[[loc|]|e] st1];
      cbn [fst snd] in *; subst st1; try done.
    destruct (get_weather_and_forecast_frame (loc_lat loc) (loc_lon loc) env
                (after_sending reqs1 st)) as (reqs2 & Hf2 & _).
    destruct (get_weather_and_forecast (loc_lat loc) (loc_lon loc) env _)
      as [[[current forecast]|e] st2]; cbn [fst snd] in *; subst st2; try done.
    cbn. apply map_Forall_insert_2; [|done]. by apply Hnew.
Qed.

End App.


(** ** The date functions on sample texts *)

Example strptime_plain : strptime_ymd "2024-01-05" = Some (mkdate 2024 1 5).
Proof. reflexivity. Qed.

Example strptime_short : strptime_ymd "2024-1-5" = Some (mkdate 2024 1 5).
Proof. reflexivity. Qed.

Example strptime_feb30 : strptime_ymd "2023-02-30" = None.
Proof. reflexivity. Qed.

Example strptime_leftover : strptime_ymd "2024-01-321" = None.
Proof. reflexivity. Qed.

Example strptime_slashes : strptime_ymd "01/05/2024" = None.
Proof. reflexivity. Qed.

Example isoformat_plain : date_isoformat (mkdate 987 3 9) = "0987-03-09".
Proof. reflexivity. Qed.

Example datetime_isoformat_whole :
  datetime_isoformat (mkdatetime (mkdate 2024 1 5) 9 30 0 0) = "2024-01-05T09:30:00".
Proof. reflexivity. Qed.

Example datetime_isoformat_micro :
  datetime_isoformat (mkdatetime (mkdate 2024 1 5) 9 30 0 1250)
  = "2024-01-05T09:30:00.001250".
Proof. reflexivity. Qed.

(** ** The handlers on the sample inputs *)

Example index_creates_paris :
  index sample_dumps sample_repr paris_post paris_env one_row_state
  = (Returned (RenderIndex (Some sample_current) (Some sample_forecast)
       (Some (WeatherQuery.mk 2 "Paris" (Some "Paris, FR") (JFloat 48.5) (JFloat 2.25)
                (Some (mkdate 2024 1 1)) (Some (mkdate 2024 1 5)) sample_now
                (Some "{...}") (Some "{...}")))),
     snd (index sample_dumps sample_repr paris_post paris_env one_row_state)).
Proof. vm_compute. reflexivity. Qed.

Example by_coords_paris :
  by_coords coords_post paris_env one_row_state
  = (Returned (Jsonify 200 (JObj [("current", sample_current);
                                  ("forecast", sample_forecast)])),
     after_sending [current_request paris_env (JFloat 48.5) (JFloat 2.25);
                    forecast_request paris_env (JFloat 48.5) (JFloat 2.25)]
       one_row_state).
Proof. vm_compute. reflexivity. Qed.

(** C1 on the code: with the geocoder timing out, and with the forecast
    endpoint answering 503, the POST edit flow lets the exception of the
    client leave the handler as it was raised, while the create flow, on
    the same submission and the same upstream, answers with its redirect
    and a flashed error. *)
Theorem edit_lets_client_errors_escape :
  fst (edit sample_dumps sample_repr 1 paris_post down_env one_row_state)
    = Raised (RequestException Timeout) /\
  fst (edit sample_dumps sample_repr 1 paris_post forecast_down_env one_row_state)
    = Raised (HTTPError 503) /\
  index sample_dumps sample_repr paris_post down_env one_row_state
    = (Returned (Redirect "index" None),
       after_flash "Error contacting geocoding service." "error"
         (after_sending [geocode_request down_env "Paris"] one_row_state)) /\
  index sample_dumps sample_repr paris_post forecast_down_env one_row_state
    = (Returned (Redirect "index" None),
       after_flash "Error retrieving weather data." "error"
         (after_sending
            [geocode_request forecast_down_env "Paris";
             current_request forecast_down_env (JFloat 48.5) (JFloat 2.25);
             forecast_request forecast_down_env (JFloat 48.5) (JFloat 2.25)]
            one_row_state)).
Proof. repeat split; vm_compute; reflexivity. Qed.

Lemma create_writes_only_on_success_witness :
  method backwards_post = "POST" /\
  create_step_fails sample_repr backwards_post paris_env one_row_state /\
  table (snd (index sample_dumps sample_repr backwards_post paris_env one_row_state))
    = table one_row_state /\
  fst (index sample_dumps sample_repr backwards_post paris_env one_row_state)
    = Returned (Redirect "index" None) /\
  exists msg,
    flashed (snd (index sample_dumps sample_repr backwards_post paris_env one_row_state))
    = flashed one_row_state ++ [(msg, "error")].
Proof.
  assert (Hfails : create_step_fails sample_repr backwards_post paris_env one_row_state).
  { do 3 right. left. exists (mkdate 2024 2 1), (mkdate 2024 1 5).
    split; [reflexivity|]. split; [reflexivity|].
    unfold date_le. cbn. lia. }
  split; [reflexivity|]. split; [exact Hfails|].
  exact (proj1 (create_writes_only_on_success sample_dumps sample_repr
                  backwards_post paris_env one_row_state eq_refl) Hfails).
Defined.

Lemma date_order_enforced_at_write_witness :
  table_ordered (table one_row_state) /\
  (table_ordered
     (table (snd (index sample_dumps sample_repr paris_post paris_env one_row_state))) /\
   table_ordered
     (table (snd (edit sample_dumps sample_repr 1 paris_post paris_env one_row_state)))) /\
  ~ date_le (mkdate 2024 2 1) (mkdate 2024 1 5) /\
  index sample_dumps sample_repr backwards_post paris_env one_row_state
    = (Returned (Redirect "index" None),
       after_flash "Start date must be before end date." "error" one_row_state) /\
  edit sample_dumps sample_repr 1 backwards_post paris_env one_row_state
    = (Returned (Redirect "edit" (Some 1)),
       after_flash "Start date must be before end date." "error" one_row_state).
Proof.
  assert (Hinv : table_ordered (table one_row_state)).
  { intros k q Hq. cbn in Hq. apply lookup_singleton_Some in Hq as [_ <-].
    intros s e _ He. discriminate He. }
  assert (Hgt : ~ date_le (mkdate 2024 2 1) (mkdate 2024 1 5))
    by (unfold date_le; cbn; lia).
  pose proof (date_order_enforced_at_write sample_dumps sample_repr 1 paris_post
                paris_env one_row_state) as [Hkeep _].
  pose proof (date_order_enforced_at_write sample_dumps sample_repr 1 backwards_post
                paris_env one_row_state) as [_ Hreject].
  destruct (Hreject "2024-02-01" "2024-01-05" (mkdate 2024 2 1) (mkdate 2024 1 5)
              eq_refl eq_refl eq_refl eq_refl eq_refl Hgt) as [Hindex Hedit].
  split; [exact Hinv|]. split; [exact (Hkeep Hinv)|]. split; [exact Hgt|].
  split; [exact Hindex|]. exact (Hedit old_row eq_refl).
Defined.

Lemma weather_fetch_all_or_nothing_witness :
  call_failed (upstream down_env (current_request down_env (JFloat 48.5) (JFloat 2.25))) /\
  (exists e, fst (get_weather_and_forecast (JFloat 48.5) (JFloat 2.25) down_env empty_state)
             = Raised e) /\
  forecast_request down_env (JFloat 48.5) (JFloat 2.25)
    ∉ drop (length (sent empty_state))
        (sent (snd (get_weather_and_forecast (JFloat 48.5) (JFloat 2.25)
                      down_env empty_state))).
Proof.
  split; [exact I|].
  exact (proj1 (proj2 (weather_fetch_all_or_nothing (JFloat 48.5) (JFloat 2.25)
                         down_env empty_state)) I).
Defined.

Lemma edit_refreshes_record_witness :
  edit sample_dumps sample_repr 1 paris_post paris_env one_row_state
    = (Returned (Redirect "detail" (Some 1)),
       snd (edit sample_dumps sample_repr 1 paris_post paris_env one_row_state)) /\
  exists q start_date end_date loc current forecast c1 c2,
    table one_row_state !! 1 = Some q /\
    parse_date (assoc "start_date" (form paris_post)) = Returned start_date /\
    parse_date (assoc "end_date" (form paris_post)) = Returned end_date /\
    fst (geocode_location sample_repr (submitted_location paris_post) paris_env one_row_state)
      = Returned (Some loc) /\
    upstream paris_env (current_request paris_env (loc_lat loc) (loc_lon loc))
      = Response c1 (Some current) /\
    upstream paris_env (forecast_request paris_env (loc_lat loc) (loc_lon loc))
      = Response c2 (Some forecast) /\
    sent (snd (edit sample_dumps sample_repr 1 paris_post paris_env one_row_state))
      = sent one_row_state
        ++ [geocode_request paris_env (submitted_location paris_post);
            current_request paris_env (loc_lat loc) (loc_lon loc);
            forecast_request paris_env (loc_lat loc) (loc_lon loc)] /\
    let q' := edited_row sample_dumps paris_post q start_date end_date loc current forecast in
    table (snd (edit sample_dumps sample_repr 1 paris_post paris_env one_row_state))
      = <[WeatherQuery.id q := q']> (table one_row_state) /\
    WeatherQuery.id q' = WeatherQuery.id q /\
    WeatherQuery.created_at q' = WeatherQuery.created_at q /\
    WeatherQuery.user_input q' = submitted_location paris_post /\
    WeatherQuery.normalized_name q' = Some (loc_name loc) /\
    WeatherQuery.lat q' = loc_lat loc /\
    WeatherQuery.lon q' = loc_lon loc /\
    WeatherQuery.start_date q' = start_date /\
    WeatherQuery.end_date q' = end_date /\
    WeatherQuery.current_weather_json q' = Some (sample_dumps current) /\
    WeatherQuery.forecast_json q' = Some (sample_dumps forecast).
Proof.
  assert (Hrun : edit sample_dumps sample_repr 1 paris_post paris_env one_row_state
            = (Returned (Redirect "detail" (Some 1)),
               snd (edit sample_dumps sample_repr 1 paris_post paris_env one_row_state)))
    by (vm_compute; reflexivity).
  split; [exact Hrun|].
  exact (edit_refreshes_record sample_dumps sample_repr 1 paris_post paris_env
           one_row_state (Some 1) _ Hrun).
Defined.

Lemma by_coords_outcomes_witness :
  get_json lat_only_post = JObj [("lat", JFloat 48.5)] /\
  by_coords lat_only_post paris_env one_row_state
    = (Returned (Jsonify 400 (JObj [("error", JStr "Missing coordinates")])),
       one_row_state).
Proof.
  split; [reflexivity|].
  exact (proj1 (by_coords_outcomes lat_only_post paris_env one_row_state
                  [("lat", JFloat 48.5)] eq_refl) (or_intror eq_refl)).
Defined.

(** C8 as stated fails on a JSON body that is not an object: for the array
    [[48.5, 2.25]], in which neither [lat] nor [lon] is to be found, the
    handler does not answer 400 but raises [AttributeError] at its first
    [data.get], before the [try]. *)
Lemma by_coords_array_body_raises :
  get_json array_post = JArr [JFloat 48.5; JFloat 2.25] /\
  by_coords array_post paris_env one_row_state = (Raised AttributeError, one_row_state) /\
  by_coords array_post paris_env one_row_state
    <> (Returned (Jsonify 400 (JObj [("error", JStr "Missing coordinates")])),
        one_row_state).
Proof.
  split; [reflexivity|]. split; [reflexivity|]. discriminate.
Qed.

Lemma no_credential_fails_fast_witness :
  WEATHER_API_KEY no_key_env = "" /\
  geocode_location sample_repr "Paris" no_key_env empty_state
    = (Raised (RuntimeError "OPENWEATHER_API_KEY is not set"), empty_state) /\
  get_weather_and_forecast (JFloat 48.5) (JFloat 2.25) no_key_env empty_state
    = (Raised (RuntimeError "OPENWEATHER_API_KEY is not set"), empty_state).
Proof.
  assert (Hkey : WEATHER_API_KEY no_key_env = "") by (vm_compute; reflexivity).
  split; [exact Hkey|].
  exact (proj2 (proj2 (no_credential_fails_fast sample_repr no_key_env)) Hkey
           empty_state "Paris" (JFloat 48.5) (JFloat 2.25)).
Defined.

Lemma geocode_name_format_witness :
  geocode_location sample_repr "Paris" paris_env empty_state
    = (Returned (Some (mklocation "Paris, FR" (JFloat 48.5) (JFloat 2.25))),
       after_sending [geocode_request paris_env "Paris"] empty_state) /\
  exists code fields rest,
    upstream paris_env (geocode_request paris_env "Paris")
      = Response code (Some (JArr (JObj fields :: rest))) /\
    loc_name (mklocation "Paris, FR" (JFloat 48.5) (JFloat 2.25))
      = py_str sample_repr (default JNull (assoc "name" fields)) +:+ ", "
        +:+ py_str sample_repr (default JNull (assoc "country" fields)) /\
    (forall city country,
       assoc "name" fields = Some (JStr city) ->
       assoc "country" fields = Some (JStr country) ->
       loc_name (mklocation "Paris, FR" (JFloat 48.5) (JFloat 2.25))
         = city +:+ ", " +:+ country) /\
    (assoc "name" fields = None ->
       loc_name (mklocation "Paris, FR" (JFloat 48.5) (JFloat 2.25))
         = "None, " +:+ py_str sample_repr (default JNull (assoc "country" fields))) /\
    (assoc "country" fields = None ->
       loc_name (mklocation "Paris, FR" (JFloat 48.5) (JFloat 2.25))
         = py_str sample_repr (default JNull (assoc "name" fields)) +:+ ", None").
Proof.
  assert (Hrun : geocode_location sample_repr "Paris" paris_env empty_state
            = (Returned (Some (mklocation "Paris, FR" (JFloat 48.5) (JFloat 2.25))),
               after_sending [geocode_request paris_env "Paris"] empty_state))
    by (vm_compute; reflexivity).
  split; [exact Hrun|].
  exact (geocode_name_format sample_repr "Paris" paris_env empty_state _ _ Hrun).
Defined.

(** C10 as stated fails on a match without the [name] field: the
    resolution succeeds and the name is ["None, FR"], which is not made of
    a city name of the first match. *)
Lemma geocode_name_without_city :
  geocode_location sample_repr "Paris" nameless_env empty_state
    = (Returned (Some (mklocation "None, FR" (JFloat 48.5) (JFloat 2.25))),
       after_sending [geocode_request nameless_env "Paris"] empty_state) /\
  upstream nameless_env (geocode_request nameless_env "Paris")
    = Response 200 (Some (JArr [JObj nameless_match])) /\
  assoc "name" nameless_match = None /\
  ~ name_from_first_match nameless_match "None, FR".
Proof.
  split; [vm_compute; reflexivity|]. split; [reflexivity|]. split; [reflexivity|].
  intros (city & country & Hcity & _). discriminate Hcity.
Qed.

Lemma export_json_round_trip_witness :
  (forall q, q ∈ all_rows (table two_row_state) -> dates_valid q) /\
  exists items,
    export "json" paris_env two_row_state = (Returned (Jsonify 200 (JArr items)), two_row_state) /\
    items = export_item <$> order_by_created_at (table two_row_state) /\
    order_by_created_at (table two_row_state) ≡ₚ all_rows (table two_row_state) /\
    length items = size (table two_row_state) /\
    Forall (fun item =>
              item_keys item = ["id"; "user_input"; "normalized_name"; "lat"; "lon";
                                "start_date"; "end_date"; "created_at"]) items /\
    (forall i q, order_by_created_at (table two_row_state) !! i = Some q ->
       exists fields, items !! i = Some (JObj fields) /\
         assoc "start_date" fields
           = Some (from_option (fun d => JStr (date_isoformat d)) JNull
                     (WeatherQuery.start_date q)) /\
         assoc "end_date" fields
           = Some (from_option (fun d => JStr (date_isoformat d)) JNull
                     (WeatherQuery.end_date q)) /\
         assoc "created_at" fields
           = Some (JStr (datetime_isoformat (WeatherQuery.created_at q)))) /\
    read_item <$> items
      = (fun q => Some (stored_fields q)) <$> order_by_created_at (table two_row_state).
Proof.
  assert (Hvalid : forall q, q ∈ all_rows (table two_row_state) -> dates_valid q).
  { intros q Hq.
    assert (Hrows : all_rows (table two_row_state) = [later_row; old_row])
      by (vm_compute; reflexivity).
    rewrite Hrows in Hq.
    apply elem_of_cons in Hq as [->|Hq]; [intros d [H|H]; discriminate H|].
    apply list_elem_of_singleton in Hq as ->.
    intros d [H|H]; [|discriminate H]. injection H as <-. reflexivity. }
  split; [exact Hvalid|].
  exact (export_json_round_trip paris_env two_row_state Hvalid).
Defined.

Lemma listings_ordered_by_created_at_witness :
  NoDup ((fun q => datetime_key (WeatherQuery.created_at q))
           <$> all_rows (table two_row_state)) /\
  (exists l, history paris_env two_row_state = (Returned (RenderHistory l), two_row_state) /\
     l ≡ₚ all_rows (table two_row_state) /\
     StronglySorted (flip created_le) l /\
     StronglySorted (flip created_lt) l) /\
  (exists l,
     export "json" paris_env two_row_state
       = (Returned (Jsonify 200 (JArr (export_item <$> l))), two_row_state) /\
     l ≡ₚ all_rows (table two_row_state) /\
     StronglySorted created_le l /\
     StronglySorted created_lt l).
Proof.
  assert (Hnd : NoDup ((fun q => datetime_key (WeatherQuery.created_at q))
                         <$> all_rows (table two_row_state))).
  { assert (Hrows : all_rows (table two_row_state) = [later_row; old_row])
      by (vm_compute; reflexivity).
    rewrite Hrows. cbn. apply NoDup_cons. split; [|apply NoDup_singleton].
    rewrite list_elem_of_singleton. discriminate. }
  pose proof (listings_ordered_by_created_at paris_env two_row_state) as H.
  cbn zeta in H.
  destruct H as [Hhistory Hexport].
  destruct Hhistory as (l1 & H1 & Hp1 & Hs1 & Hstrict1).
  destruct Hexport as (l2 & H2 & Hcsv & Hp2 & Hs2 & Hstrict2).
  split; [exact Hnd|]. split.
  - exists l1. repeat split; [exact H1|exact Hp1|exact Hs1|exact (Hstrict1 Hnd)].
  - exists l2. repeat split; [exact H2|exact Hp2|exact Hs2|exact (Hstrict2 Hnd)].
Defined.

(** C7 as stated fails on two rows created at the same instant: both
    listings hold the two rows, and neither row is strictly before the
    other, whichever comes first. *)
Lemma listings_not_strict_on_ties :
  history paris_env tie_state = (Returned (RenderHistory [twin_row; old_row]), tie_state) /\
  ~ StronglySorted (flip created_lt) [twin_row; old_row] /\
  export "json" paris_env tie_state
    = (Returned (Jsonify 200 (JArr (export_item <$> [twin_row; old_row]))), tie_state) /\
  ~ StronglySorted created_lt [twin_row; old_row].
Proof.
  split; [vm_compute; reflexivity|]. split; [|split; [vm_compute; reflexivity|]].
  - intros H. apply StronglySorted_inv in H as [_ H].
    apply Forall_inv in H. exact H.
  - intros H. apply StronglySorted_inv in H as [_ H].
    apply Forall_inv in H. exact H.
Qed.

(** ** The further properties on the sample inputs *)

Lemma one_row_state_keyed : table_keyed (table one_row_state).
Proof. apply map_Forall_singleton. reflexivity. Qed.

Lemma two_row_state_keyed : table_keyed (table two_row_state).
Proof.
  apply map_Forall_insert_2; [reflexivity|]. apply map_Forall_singleton. reflexivity.
Qed.

Lemma create_converts_client_errors_witness :
  method paris_post = "POST" /\
  submitted_location paris_post <> "" /\
  parse_date (assoc "start_date" (form paris_post)) = Returned (Some (mkdate 2024 1 1)) /\
  parse_date (assoc "end_date" (form paris_post)) = Returned (Some (mkdate 2024 1 5)) /\
  starts_after_end (Some (mkdate 2024 1 1)) (Some (mkdate 2024 1 5)) = false /\
  geocode_location sample_repr (submitted_location paris_post) down_env one_row_state
    = (Raised (RequestException Timeout),
       after_sending [geocode_request down_env "Paris"] one_row_state) /\
  index sample_dumps sample_repr paris_post down_env one_row_state
    = (Returned (Redirect "index" None),
       after_flash "Error contacting geocoding service." "error"
         (after_sending [geocode_request down_env "Paris"] one_row_state)) /\
  table (after_sending [geocode_request down_env "Paris"] one_row_state)
    = table one_row_state.
Proof.
  assert (Hloc : submitted_location paris_post <> "") by discriminate.
  assert (Hgeo : geocode_location sample_repr (submitted_location paris_post) down_env
                   one_row_state
                 = (Raised (RequestException Timeout),
                    after_sending [geocode_request down_env "Paris"] one_row_state))
    by (vm_compute; reflexivity).
  split; [reflexivity|]. split; [exact Hloc|]. split; [reflexivity|].
  split; [reflexivity|]. split; [reflexivity|]. split; [exact Hgeo|].
  exact (proj1 (create_converts_client_errors sample_dumps sample_repr paris_post down_env
                  one_row_state _ _ eq_refl Hloc eq_refl eq_refl eq_refl) _ _ Hgeo).
Defined.

Lemma edit_propagates_client_errors_witness :
  table one_row_state !! 1 = Some old_row /\
  method paris_post = "POST" /\
  submitted_location paris_post <> "" /\
  parse_date (assoc "start_date" (form paris_post)) = Returned (Some (mkdate 2024 1 1)) /\
  parse_date (assoc "end_date" (form paris_post)) = Returned (Some (mkdate 2024 1 5)) /\
  starts_after_end (Some (mkdate 2024 1 1)) (Some (mkdate 2024 1 5)) = false /\
  geocode_location sample_repr (submitted_location paris_post) down_env one_row_state
    = (Raised (RequestException Timeout),
       after_sending [geocode_request down_env "Paris"] one_row_state) /\
  edit sample_dumps sample_repr 1 paris_post down_env one_row_state
    = (Raised (RequestException Timeout),
       after_sending [geocode_request down_env "Paris"] one_row_state) /\
  table (after_sending [geocode_request down_env "Paris"] one_row_state)
    = table one_row_state.
Proof.
  assert (Hloc : submitted_location paris_post <> "") by discriminate.
  assert (Hgeo : geocode_location sample_repr (submitted_location paris_post) down_env
                   one_row_state
                 = (Raised (RequestException Timeout),
                    after_sending [geocode_request down_env "Paris"] one_row_state))
    by (vm_compute; reflexivity).
  split; [reflexivity|]. split; [reflexivity|]. split; [exact Hloc|].
  split; [reflexivity|]. split; [reflexivity|]. split; [reflexivity|].
  split; [exact Hgeo|].
  exact (proj1 (edit_propagates_client_errors sample_dumps sample_repr 1 paris_post
                  down_env one_row_state old_row _ _ eq_refl eq_refl Hloc eq_refl eq_refl
                  eq_refl) _ _ Hgeo).
Defined.


Lemma create_keeps_existing_rows_witness :
  table one_row_state !! 1 = Some old_row /\
  table (snd (index sample_dumps sample_repr paris_post paris_env one_row_state)) !! 1
    = Some old_row.
Proof.
  split; [reflexivity|].
  exact (create_keeps_existing_rows sample_dumps sample_repr paris_post paris_env
           one_row_state 1 old_row eq_refl).
Defined.

Lemma edit_touches_only_its_row_witness :
  table_keyed (table two_row_state) /\
  table two_row_state !! 1 = Some old_row /\
  (forall k, k <> 1 ->
     table (snd (edit sample_dumps sample_repr 1 paris_post paris_env two_row_state)) !! k
     = table two_row_state !! k) /\
  (exists q',
     table (snd (edit sample_dumps sample_repr 1 paris_post paris_env two_row_state)) !! 1
       = Some q' /\
     WeatherQuery.id q' = WeatherQuery.id old_row /\
     WeatherQuery.created_at q' = WeatherQuery.created_at old_row) /\
  size (table (snd (edit sample_dumps sample_repr 1 paris_post paris_env two_row_state)))
    = size (table two_row_state).
Proof.
  split; [exact two_row_state_keyed|]. split; [reflexivity|].
  exact (edit_touches_only_its_row sample_dumps sample_repr 1 paris_post paris_env
           two_row_state old_row two_row_state_keyed eq_refl).
Defined.

Lemma primary_key_kept_witness :
  table_keyed (table one_row_state) /\
  table_keyed (table (snd (index sample_dumps sample_repr paris_post paris_env one_row_state))) /\
  table_keyed (table (snd (edit sample_dumps sample_repr 1 paris_post paris_env one_row_state))) /\
  table_keyed (table (snd (delete 1 paris_env one_row_state))).
Proof.
  split; [exact one_row_state_keyed|].
  exact (primary_key_kept sample_dumps sample_repr 1 paris_post paris_env one_row_state
           one_row_state_keyed).
Defined.

Lemma blank_location_rejected_witness :
  method blank_post = "POST" /\
  all_blank (default "" (assoc "location" (form blank_post))) = true /\
  index sample_dumps sample_repr blank_post paris_env one_row_state
    = (Returned (Redirect "index" None),
       after_flash "Please enter a location." "error" one_row_state) /\
  forall q, table one_row_state !! 1 = Some q ->
    edit sample_dumps sample_repr 1 blank_post paris_env one_row_state
      = (Returned (Redirect "edit" (Some (WeatherQuery.id q))),
         after_flash "Location cannot be empty." "error" one_row_state).
Proof.
  split; [reflexivity|]. split; [reflexivity|].
  exact (blank_location_rejected sample_dumps sample_repr 1 blank_post paris_env
           one_row_state eq_refl eq_refl).
Defined.

Lemma two_row_state_distinct :
  NoDup ((fun q => datetime_key (WeatherQuery.created_at q))
           <$> all_rows (table two_row_state)).
Proof.
  assert (Hrows : all_rows (table two_row_state) = [later_row; old_row])
    by (vm_compute; reflexivity).
  rewrite Hrows. cbn. apply NoDup_cons. split; [|apply NoDup_singleton].
  rewrite list_elem_of_singleton. discriminate.
Qed.

Lemma history_mirrors_export_witness :
  NoDup ((fun q => datetime_key (WeatherQuery.created_at q))
           <$> all_rows (table two_row_state)) /\
  exists l,
    export "json" paris_env two_row_state
      = (Returned (Jsonify 200 (JArr (export_item <$> l))), two_row_state) /\
    history paris_env two_row_state = (Returned (RenderHistory (reverse l)), two_row_state).
Proof.
  split; [exact two_row_state_distinct|].
  exact (history_mirrors_export paris_env two_row_state two_row_state_distinct).
Defined.

Lemma created_row_is_shown_witness :
  index tagged_dumps sample_repr paris_post paris_env one_row_state
    = (Returned (RenderIndex (Some sample_current) (Some sample_forecast)
         (Some (created_row tagged_dumps paris_post paris_env one_row_state
                  (Some (mkdate 2024 1 1)) (Some (mkdate 2024 1 5))
                  (mklocation "Paris, FR" (JFloat 48.5) (JFloat 2.25))
                  sample_current sample_forecast))),
       snd (index tagged_dumps sample_repr paris_post paris_env one_row_state)) /\
  tagged_dumps sample_current <> "" /\
  tagged_loads (tagged_dumps sample_current) = Some sample_current /\
  tagged_dumps sample_forecast <> "" /\
  tagged_loads (tagged_dumps sample_forecast) = Some sample_forecast /\
  detail tagged_loads 2 down_env
    (snd (index tagged_dumps sample_repr paris_post paris_env one_row_state))
    = (Returned (RenderDetail
         (created_row tagged_dumps paris_post paris_env one_row_state
            (Some (mkdate 2024 1 1)) (Some (mkdate 2024 1 5))
            (mklocation "Paris, FR" (JFloat 48.5) (JFloat 2.25))
            sample_current sample_forecast)
         (Some sample_current) (Some sample_forecast)),
       snd (index tagged_dumps sample_repr paris_post paris_env one_row_state)).
Proof.
  assert (Hrun : index tagged_dumps sample_repr paris_post paris_env one_row_state
    = (Returned (RenderIndex (Some sample_current) (Some sample_forecast)
         (Some (created_row tagged_dumps paris_post paris_env one_row_state
                  (Some (mkdate 2024 1 1)) (Some (mkdate 2024 1 5))
                  (mklocation "Paris, FR" (JFloat 48.5) (JFloat 2.25))
                  sample_current sample_forecast))),
       snd (index tagged_dumps sample_repr paris_post paris_env one_row_state)))
    by (vm_compute; reflexivity).
  assert (Hc : tagged_dumps sample_current <> "") by discriminate.
  assert (Hf : tagged_dumps sample_forecast <> "") by discriminate.
  split; [exact Hrun|]. split; [exact Hc|]. split; [reflexivity|].
  split; [exact Hf|]. split; [reflexivity|].
  exact (created_row_is_shown tagged_dumps tagged_loads sample_repr paris_post paris_env
           down_env one_row_state _ _ _ _ Hrun Hc eq_refl Hf eq_refl).
Defined.

Lemma deleted_row_is_gone_witness :
  table_keyed (table two_row_state) /\
  delete 1 paris_env two_row_state
    = (Returned (Redirect "history" None), snd (delete 1 paris_env two_row_state)) /\
  detail sample_loads 1 paris_env (snd (delete 1 paris_env two_row_state))
    = (Raised NotFound404, snd (delete 1 paris_env two_row_state)) /\
  delete 1 paris_env (snd (delete 1 paris_env two_row_state))
    = (Raised NotFound404, snd (delete 1 paris_env two_row_state)) /\
  exists l,
    history paris_env (snd (delete 1 paris_env two_row_state))
      = (Returned (RenderHistory l), snd (delete 1 paris_env two_row_state)) /\
    Forall (fun q => WeatherQuery.id q <> 1) l.
Proof.
  assert (Hrun : delete 1 paris_env two_row_state
            = (Returned (Redirect "history" None), snd (delete 1 paris_env two_row_state)))
    by (vm_compute; reflexivity).
  split; [exact two_row_state_keyed|]. split; [exact Hrun|].
  exact (deleted_row_is_gone sample_loads 1 paris_env paris_env two_row_state _ _
           two_row_state_keyed Hrun).
Defined.

Lemma by_coords_rejects_non_object_witness :
  (forall fields, get_json array_post <> JObj fields) /\
  by_coords array_post paris_env one_row_state = (Raised AttributeError, one_row_state).
Proof.
  assert (Hbody : forall fields, get_json array_post <> JObj fields) by discriminate.
  split; [exact Hbody|].
  exact (by_coords_rejects_non_object array_post paris_env one_row_state Hbody).
Defined.

Lemma geocode_upstream_answers_witness :
  WEATHER_API_KEY no_match_env <> "" /\
  upstream no_match_env (geocode_request no_match_env "Atlantis")
    = Response 200 (Some (JArr [])) /\
  geocode_location sample_repr "Atlantis" no_match_env empty_state
    = (Returned None, after_sending [geocode_request no_match_env "Atlantis"] empty_state).
Proof.
  assert (Hkey : WEATHER_API_KEY no_match_env <> "") by (vm_compute; discriminate).
  split; [exact Hkey|]. split; [reflexivity|].
  exact (proj1 (proj2 (proj2 (proj2
           (geocode_upstream_answers sample_repr "Atlantis" no_match_env empty_state Hkey))))
           200 (JArr []) eq_refl eq_refl eq_refl).
Defined.

Lemma edit_twice_same_table_witness :
  table_keyed (table one_row_state) /\
  edit sample_dumps sample_repr 1 paris_post paris_env one_row_state
    = (Returned (Redirect "detail" (Some 1)),
       snd (edit sample_dumps sample_repr 1 paris_post paris_env one_row_state)) /\
  exists st2,
    edit sample_dumps sample_repr 1 paris_post paris_env
      (snd (edit sample_dumps sample_repr 1 paris_post paris_env one_row_state))
      = (Returned (Redirect "detail" (Some 1)), st2) /\
    table st2
      = table (snd (edit sample_dumps sample_repr 1 paris_post paris_env one_row_state)).
Proof.
  assert (Hrun : edit sample_dumps sample_repr 1 paris_post paris_env one_row_state
            = (Returned (Redirect "detail" (Some 1)),
               snd (edit sample_dumps sample_repr 1 paris_post paris_env one_row_state)))
    by (vm_compute; reflexivity).
  split; [exact one_row_state_keyed|]. split; [exact Hrun|].
  exact (edit_twice_same_table sample_dumps sample_repr 1 paris_post paris_env
           one_row_state _ _ one_row_state_keyed Hrun).
Defined.


Lemma user_input_kept_trimmed_witness :
  map_Forall (fun _ q => input_trimmed q) (table one_row_state) /\
  map_Forall (fun _ q => input_trimmed q)
    (table (snd (index sample_dumps sample_repr paris_post paris_env one_row_state))) /\
  map_Forall (fun _ q => input_trimmed q)
    (table (snd (edit sample_dumps sample_repr 1 paris_post paris_env one_row_state))).
Proof.
  assert (Hinv : map_Forall (fun _ q => input_trimmed q) (table one_row_state)).
  { apply map_Forall_singleton. split; [discriminate|reflexivity]. }
  split; [exact Hinv|].
  exact (user_input_kept_trimmed sample_dumps sample_repr 1 paris_post paris_env
           one_row_state Hinv).
Defined.
